(** * The request/response normalisation layer of the Strapi frontend

    A shallow embedding of
      - [src/frontend/data/data-api.ts]  ([apiWithTimeout], [apiRequest], [api])
      - the error-handler module         ([handleApiError], [validateApiResponse])
    followed by the properties the specification states about them.

    JavaScript values are modelled by [JsVal]; the host (network, timer,
    serialiser, console, router) is modelled by an oracle for what it answers
    and by a trace of the calls the program makes to it. *)

From Stdlib Require Import ZArith String List Bool Lia.
Import ListNotations.
Open Scope string_scope.
Open Scope Z_scope.

(* ===================================================================== *)
(** ** JavaScript values *)
(* ===================================================================== *)

(** The values the program handles: what [response.json()] can produce,
    plus [undefined].  A number is an integer here: the only tests the
    program makes on a number are its truthiness and [=== 404], for which a
    fractional number behaves like any integer other than 0 and 404.  An
    object is the list of its own properties (a parsed object has each key
    once; a read takes the first binding of the key). *)
#[warnings="-register-all"]
Inductive JsVal : Type :=
| VUndefined
| VNull
| VBool (b : bool)
| VNum (n : Z)
| VStr (s : string)
| VArr (items : list JsVal)
| VObj (props : list (string * JsVal)).

(** ToBoolean. *)
Definition truthy (v : JsVal) : bool :=
  match v with
  | VUndefined | VNull => false
  | VBool b => b
  | VNum n => negb (n =? 0)
  | VStr s => negb (String.eqb s "")
  | VArr _ | VObj _ => true
  end.

Definition nullish (v : JsVal) : bool :=
  match v with
  | VUndefined | VNull => true
  | _ => false
  end.

Fixpoint lookup (k : string) (props : list (string * JsVal)) : JsVal :=
  match props with
  | [] => VUndefined
  | (k', v) :: rest => if String.eqb k k' then v else lookup k rest
  end.

(** [v.k] for a [v] that is neither [null] nor [undefined].  The keys the
    program reads ([data], [meta], [error], [status], [name], [message],
    [success]) are on no built-in prototype, so only an object's own
    properties can answer; primitives and arrays answer [undefined]. *)
Definition field (v : JsVal) (k : string) : JsVal :=
  match v with
  | VObj props => lookup k props
  | _ => VUndefined
  end.

(** [v?.k] *)
Definition opt_field (v : JsVal) (k : string) : JsVal :=
  if nullish v then VUndefined else field v k.

(** [a ?? b] *)
Definition js_coalesce (a b : JsVal) : JsVal := if nullish a then b else a.

(** [a || b] *)
Definition js_or (a b : JsVal) : JsVal := if truthy a then a else b.

(** [v === "s"] and [v === n] for a string or number literal. *)
Definition strict_eq_str (v : JsVal) (s : string) : bool :=
  match v with
  | VStr s' => String.eqb s' s
  | _ => false
  end.

Definition strict_eq_num (v : JsVal) (n : Z) : bool :=
  match v with
  | VNum n' => n' =? n
  | _ => false
  end.

(* ===================================================================== *)
(** ** Exceptions, completions and the trace of host calls *)
(* ===================================================================== *)

(** What a [throw] carries.  [ErrorObject name message] is an instance of
    [Error] (a [TypeError], a [SyntaxError], a [DOMException], ...);
    [message] holds the argument the constructor was given, which is the
    object's [message] whenever that argument is a string.
    [ThrownValue v] is any other thrown value. *)
Inductive Thrown : Type :=
| ErrorObject (name : string) (message : JsVal)
| ThrownValue (v : JsVal).

Inductive Completion (A : Type) : Type :=
| Normal (a : A)
| Abrupt (t : Thrown).
Arguments Normal {A} a.
Arguments Abrupt {A} t.

(** The [TypeError] of a property read on [null] or [undefined].  The
    wording is the engine's; no property below depends on it. *)
Definition TypeError_read (v : JsVal) (k : string) : Thrown :=
  ErrorObject "TypeError"
    (VStr ("Cannot read properties of "
           ++ (match v with VNull => "null" | _ => "undefined" end)
           ++ " (reading '" ++ k ++ "')")).

(** [v.k], which throws on [null] and [undefined]. *)
Definition get (v : JsVal) (k : string) : Completion JsVal :=
  if nullish v then Abrupt (TypeError_read v k) else Normal (field v k).

(** [error.k] and [error instanceof Error] for a caught value. *)
Definition thrown_get (t : Thrown) (k : string) : Completion JsVal :=
  match t with
  | ErrorObject name message =>
      Normal (if String.eqb k "name" then VStr name
              else if String.eqb k "message" then message
              else VUndefined)
  | ThrownValue v => get v k
  end.

Definition instanceof_Error (t : Thrown) : bool :=
  match t with
  | ErrorObject _ _ => true
  | ThrownValue _ => false
  end.

Inductive HTTPMethod : Type := GET | POST | PUT | PATCH | DELETE.

Definition is_DELETE (m : HTTPMethod) : bool :=
  match m with DELETE => true | _ => false end.

(** GET and DELETE requests have no request body. *)
Definition bodyless (m : HTTPMethod) : bool :=
  match m with GET | DELETE => true | _ => false end.

(** The signal of the [AbortController] that [apiWithTimeout] creates, or
    one that comes from elsewhere. *)
Inductive AbortSignal : Type := ControllerSignal | ForeignSignal (id : nat).

Record RequestInit : Type := mkRequestInit {
  ri_method : option HTTPMethod;
  ri_headers : list (string * string);
  ri_body : option string;
  ri_signal : option AbortSignal
}.

(** The three [console.error] calls of [apiRequest], by their arguments. *)
Inductive LogEntry : Type :=
| LogApiError (m : HTTPMethod) (url : string) (status : Z)
              (statusText : string) (data : JsVal) (hasAuthToken : bool)
| LogTimedOut
| LogUnexpected (m : HTTPMethod) (url : string) (error : Thrown).

(** The calls the program makes to its host, in order. *)
Inductive Event : Type :=
| EvSetTimeout (ms : Z)
| EvFetch (input : string) (init : RequestInit)
| EvAbort
| EvClearTimeout
| EvJson
| EvConsoleError (entry : LogEntry)
| EvNotFound.

(** A computation: the host calls it made and how it completed. *)
Definition Run (A : Type) : Type := (list Event * Completion A)%type.

Definition ret {A} (a : A) : Run A := ([], Normal a).
Definition throw {A} (t : Thrown) : Run A := ([], Abrupt t).
Definition lift {A} (c : Completion A) : Run A := ([], c).
Definition emit (e : Event) : Run unit := ([e], Normal tt).

Definition bind {A B} (m : Run A) (f : A -> Run B) : Run B :=
  match m with
  | (tr, Normal a) => let (tr', c) := f a in ((tr ++ tr')%list, c)
  | (tr, Abrupt t) => (tr, Abrupt t)
  end.

(** [try { m } catch (error) { handler error }] *)
Definition try_catch {A} (m : Run A) (handler : Thrown -> Run A) : Run A :=
  match m with
  | (tr, Abrupt t) => let (tr', c) := handler t in ((tr ++ tr')%list, c)
  | done => done
  end.

(** [try { m } finally { cleanup }] *)
Definition try_finally {A} (m : Run A) (cleanup : Run unit) : Run A :=
  match m, cleanup with
  | (tr, c), (tr', Normal _) => ((tr ++ tr')%list, c)
  | (tr, _), (tr', Abrupt t) => ((tr ++ tr')%list, Abrupt t)
  end.

Declare Scope run_scope.
Delimit Scope run_scope with run.
Notation "x <- m ;; k" := (bind m (fun x => k))
  (at level 61, m at next level, right associativity) : run_scope.
Notation "m ;; k" := (bind m (fun _ => k))
  (at level 61, right associativity) : run_scope.
Open Scope run_scope.

Definition trace {A} (r : Run A) : list Event := fst r.
Definition outcome {A} (r : Run A) : Completion A := snd r.

(* ===================================================================== *)
(** ** The host *)
(* ===================================================================== *)

(** A [Response]: its status line and what [response.json()] settles to. *)
Record Response : Type := mkResponse {
  r_status : Z;
  r_statusText : string;
  r_json : Completion JsVal
}.

(** [response.ok] *)
Definition ok (r : Response) : bool :=
  (200 <=? r_status r) && (r_status r <=? 299).

Definition response_json (r : Response) : Run JsVal :=
  emit EvJson ;; lift (r_json r).

(** Which of the two racing events the event loop delivers first for one
    call of [fetch]: the call settles (resolves with a response or rejects),
    or the timer's callback runs.  A call exceeds its timeout exactly when
    it is the timer's callback that runs first. *)
Inductive Network : Type :=
| Settles (c : Completion Response)
| TimerFires.

(** The [DOMException] with which [fetch] rejects once its signal is
    aborted.  It is an instance of [Error]; the message is the engine's. *)
Definition AbortError : Thrown :=
  ErrorObject "AbortError" (VStr "This operation was aborted").

(** [await fetch(input, init)] under the race [net].  When the timer's
    callback runs first it calls [controller.abort()], and [fetch] rejects
    with [AbortError]. *)
Definition fetch (net : Network) (input : string) (init : RequestInit)
  : Run Response :=
  emit (EvFetch input init) ;;
  match net with
  | Settles c => lift c
  | TimerFires => emit EvAbort ;; throw AbortError
  end.

(* ===================================================================== *)
(** ** data-api.ts *)
(* ===================================================================== *)

Record ApiOptions (P : Type) : Type := mkApiOptions {
  method : HTTPMethod;
  payload : option P;
  timeoutMs : option Z;
  authToken : option string
}.
Arguments mkApiOptions {P} _ _ _ _.
Arguments method {P} _.
Arguments payload {P} _.
Arguments timeoutMs {P} _.
Arguments authToken {P} _.

(** Modelled from the spec: the type [TStrapiResponse] of [@/types], which
    is not among the sources.  The envelope has the properties that the
    specification's data model lists and that the code reads and writes.
    A property that is absent reads as [undefined], and the program never
    tells the two apart. *)
Record TStrapiResponse : Type := mkEnvelope {
  data : JsVal;
  error : JsVal;
  meta : JsVal;
  success : JsVal;
  status : JsVal
}.

(** The object literal [{ status, name, message }]. *)
Definition error_object (st : Z) (name message : JsVal) : JsVal :=
  VObj [("status", VNum st); ("name", name); ("message", message)].

Definition failure (err : JsVal) (st : Z) : TStrapiResponse :=
  {| data := VUndefined; error := err; meta := VUndefined;
     success := VBool false; status := VNum st |}.

(** [{ ...init, signal: controller.signal }] *)
Definition with_signal (init : RequestInit) (s : AbortSignal) : RequestInit :=
  {| ri_method := ri_method init; ri_headers := ri_headers init;
     ri_body := ri_body init; ri_signal := Some s |}.

Definition apiWithTimeout (net : Network) (input : string)
    (init : RequestInit) (timeoutMs : Z) : Run Response :=
  emit (EvSetTimeout timeoutMs) ;;
  try_finally
    (response <- fetch net input (with_signal init ControllerSignal) ;;
     ret response)
    (emit EvClearTimeout).

Definition token_given (authToken : option string) : bool :=
  match authToken with
  | Some t => negb (String.eqb t "")
  | None => false
  end.

Definition request_headers (authToken : option string)
  : list (string * string) :=
  ("Content-Type", "application/json")
  :: match authToken with
     | Some t => if String.eqb t "" then []
                 else [("Authorization", "Bearer " ++ t)]
     | None => []
     end.

Definition timeout_envelope : TStrapiResponse :=
  failure (error_object 408 (VStr "TimeoutError")
             (VStr "The request timed out. Please try again.")) 408.

Section Normaliser.

(** The payload type [P] of the caller and what
    [JSON.stringify] does on a payload: it returns the JSON text, or
    [undefined] ([None]) for a payload that has none (a function, a symbol,
    a [toJSON] that returns [undefined]), or it throws (on a cycle, on a
    [BigInt], or whatever a [toJSON] method of the payload throws).  In
    [ApiOptions] a payload that is absent, [null] or [undefined] is
    [None]. *)
Variable P : Type.
Variable JSON_stringify : P -> Completion (option string).

(** [JSON.stringify(payload ?? {})] *)
Definition stringify_payload (payload : option P) : Completion (option string) :=
  match payload with
  | Some p => JSON_stringify p
  | None => Normal (Some "{}")
  end.

Definition request_body (m : HTTPMethod) (payload : option P)
  : Run (option string) :=
  if bodyless m then ret None
  else s <- lift (stringify_payload payload) ;; ret s.

(** The body of the [catch] clause. *)
Definition on_caught (m : HTTPMethod) (url : string) (error : Thrown)
  : Run TStrapiResponse :=
  name <- lift (thrown_get error "name") ;;
  if strict_eq_str name "AbortError" then
    emit (EvConsoleError LogTimedOut) ;;
    ret timeout_envelope
  else
    emit (EvConsoleError (LogUnexpected m url error)) ;;
    message <- (if instanceof_Error error
                then lift (thrown_get error "message")
                else ret (VStr "Something went wrong")) ;;
    ret (failure (error_object 500 (VStr "NetworkError") message) 500).

(** The statements of the [try] block that follow the [await] of
    [apiWithTimeout]. *)
Definition normalise (method : HTTPMethod) (url : string)
    (authToken : option string) (response : Response)
  : Run TStrapiResponse :=
  if is_DELETE method then
    ret (if ok response
         then {| data := VBool true; error := VUndefined;
                 meta := VUndefined; success := VBool true;
                 status := VNum (r_status response) |}
         else failure
                (error_object (r_status response) (VStr "Error")
                   (VStr "Failed to delete resource"))
                (r_status response))
  else
    data <- response_json response ;;
    if negb (ok response) then
      emit (EvConsoleError
              (LogApiError method url (r_status response)
                 (r_statusText response) data
                 (token_given authToken))) ;;
      data_error <- lift (get data "error") ;;
      if truthy data_error then
        ret (failure data_error (r_status response))
      else
        ret (failure
               (error_object (r_status response)
                  (js_coalesce
                     (opt_field (opt_field data "error") "name")
                     (VStr "Error"))
                  (js_coalesce
                     (opt_field (opt_field data "error") "message")
                     (js_or (VStr (r_statusText response))
                        (VStr "An error occurred"))))
               (r_status response))
    else
      data_data <- lift (get data "data") ;;
      let responseData := if truthy data_data then data_data else data in
      data_meta <- lift (get data "meta") ;;
      let responseMeta :=
        if truthy data_meta then data_meta else VUndefined in
      ret {| data := responseData; error := VUndefined;
             meta := responseMeta; success := VBool true;
             status := VNum (r_status response) |}.

Definition apiRequest (net : Network) (url : string)
    (options : ApiOptions P) : Run TStrapiResponse :=
  let method := method options in
  let timeoutMs :=
    match timeoutMs options with Some t => t | None => 8000 end in
  let authToken := authToken options in
  let headers := request_headers authToken in
  try_catch
    (body <- request_body method (payload options) ;;
     response <- apiWithTimeout net url
                   {| ri_method := Some method; ri_headers := headers;
                      ri_body := body; ri_signal := None |}
                   timeoutMs ;;
     normalise method url authToken response)
    (on_caught method url).

(** The request gets as far as [fetch]: it needs no body, or
    [JSON.stringify] of its payload returns. *)
Definition serialises (options : ApiOptions P) : Prop :=
  bodyless (method options) = true
  \/ exists s, stringify_payload (payload options) = Normal s.

End Normaliser.

Arguments apiRequest {P} JSON_stringify net url options.
Arguments serialises {P} JSON_stringify options.
Arguments request_body {P} JSON_stringify m payload.
Arguments stringify_payload {P} JSON_stringify payload.
Arguments ok : simpl never.

Definition timeout_of {P} (options : ApiOptions P) : Z :=
  match timeoutMs options with Some t => t | None => 8000 end.

(** The [RequestInit] that [apiRequest] hands to [fetch]. *)
Definition init_sent {P} (options : ApiOptions P) (body : option string)
  : RequestInit :=
  {| ri_method := Some (method options);
     ri_headers := request_headers (authToken options);
     ri_body := body;
     ri_signal := Some ControllerSignal |}.

(** The convenience object [api]: one function per verb.  The payload of
    [post], [put] and [patch] is handed on as it is; [None] is a payload
    that is [null] or [undefined]. *)
Module api.
Record Extra : Type := mkExtra {
  x_timeoutMs : option Z;
  x_authToken : option string
}.
Definition no_extra : Extra := mkExtra None None.

Section Verbs.
Variable P : Type.
Variable JSON_stringify : P -> Completion (option string).
Variable net : Network.

Definition get (url : string) (options : Extra) :=
  apiRequest JSON_stringify net url
    (mkApiOptions GET None (x_timeoutMs options) (x_authToken options)).
End Verbs.
End api.

(* ===================================================================== *)
(** ** The error handler: [handleApiError], [validateApiResponse] *)
(* ===================================================================== *)

(** The argument type [TStrapiResponse<T> | null | undefined] of the
    parameter that the source calls [data] (here [response], to keep the
    name [data] for the envelope's property). *)
Inductive MaybeEnvelope : Type :=
| IsNull
| IsUndefined
| IsEnvelope (e : TStrapiResponse).

(** How a call of the error handler ends.  [notFound()] is the router's
    primitive, imported from [next/navigation]; as the specification has
    it, it transfers control out of the function and does not return, so
    the statements after it do not run. *)
Inductive Exit (A : Type) : Type :=
| Returns (a : A)
| Throws (t : Thrown)
| NotFound.
Arguments Returns {A} a.
Arguments Throws {A} t.
Arguments NotFound {A}.

Definition Interp (A : Type) : Type := (list Event * Exit A)%type.

(** [new Error(message)] *)
Definition new_Error (message : JsVal) : Thrown := ErrorObject "Error" message.

Definition notFound {A} : Interp A := ([EvNotFound], NotFound).

(** [`Failed to load ${resourceName || "resource"}`] *)
Definition failed_to_load (resourceName : option string) : string :=
  "Failed to load "
  ++ match resourceName with
     | Some n => if String.eqb n "" then "resource" else n
     | None => "resource"
     end.

Definition handleApiError (response : MaybeEnvelope)
    (resourceName : option string) : Interp unit :=
  match response with
  | IsNull | IsUndefined =>
      ([], Throws (new_Error (VStr (failed_to_load resourceName))))
  | IsEnvelope e =>
      if strict_eq_num (opt_field (error e) "status") 404 then notFound
      else if negb (truthy (success e)) || negb (truthy (data e)) then
        let errorMessage :=
          js_or (opt_field (error e) "message")
                (VStr (failed_to_load resourceName)) in
        ([], Throws (new_Error errorMessage))
      else ([], Returns tt)
  end.

Definition validateApiResponse (response : MaybeEnvelope)
    (resourceName : option string) : Interp JsVal :=
  match handleApiError response resourceName with
  | (tr, Returns _) =>
      match response with
      | IsEnvelope e => (tr, Returns (data e))
      | IsNull => (tr, Throws (TypeError_read VNull "data"))
      | IsUndefined => (tr, Throws (TypeError_read VUndefined "data"))
      end
  | (tr, Throws t) => (tr, Throws t)
  | (tr, NotFound) => (tr, NotFound)
  end.

(* ===================================================================== *)
(** ** Notions used in the statements *)
(* ===================================================================== *)

(** The envelope of a DELETE, from the status of its response alone. *)
Definition delete_envelope (r : Response) : TStrapiResponse :=
  if ok r
  then {| data := VBool true; error := VUndefined; meta := VUndefined;
          success := VBool true; status := VNum (r_status r) |}
  else failure
         (error_object (r_status r) (VStr "Error")
            (VStr "Failed to delete resource"))
         (r_status r).

(** [statusText || "An error occurred"] *)
Definition status_text_or_generic (r : Response) : string :=
  if String.eqb (r_statusText r) "" then "An error occurred"
  else r_statusText r.

(** [data.data ? data.data : data] *)
Definition unwrapped (body : JsVal) : JsVal :=
  if truthy (field body "data") then field body "data" else body.

(** [data.meta ? data.meta : undefined] *)
Definition carried_meta (body : JsVal) : JsVal :=
  if truthy (field body "meta") then field body "meta" else VUndefined.

(** A serialiser that never throws. *)
Definition stringify_unit (_ : unit) : Completion (option string) :=
  Normal (Some "{}").

(** The options of a call with a verb and nothing else. *)
Definition plain (m : HTTPMethod) : ApiOptions unit :=
  mkApiOptions m None None None.

(** A network on which [fetch] resolves before the timer, with a body
    that parses. *)
Definition responds (st : Z) (text : string) (body : JsVal) : Network :=
  Settles (Normal (mkResponse st text (Normal body))).

(** Strapi's error object for a 404. *)
Definition not_found_error : JsVal :=
  VObj [("status", VNum 404); ("name", VStr "NotFoundError");
        ("message", VStr "not found")].

(** The two shapes of an envelope: [data] populated and no [error] under
    [success: true]; [error] populated and no [data] under
    [success: false]. *)
Definition one_of_data_or_error (e : TStrapiResponse) : Prop :=
  (success e = VBool true
   /\ nullish (data e) = false /\ error e = VUndefined)
  \/ (success e = VBool false
      /\ data e = VUndefined /\ nullish (error e) = false).

(** A payload whose [toJSON] method throws [undefined]. *)
Definition stringify_throws_undefined (_ : unit) : Completion (option string) :=
  Abrupt (ThrownValue VUndefined).

(** [envelope.error?.status === 404] *)
Definition is_404 (e : TStrapiResponse) : bool :=
  strict_eq_num (opt_field (error e) "status") 404.

(** [envelope.error?.message] *)
Definition error_message (e : TStrapiResponse) : JsVal :=
  opt_field (error e) "message".

(** A home page as the loader receives it. *)
Definition home_page : JsVal :=
  VObj [("id", VNum 1); ("title", VStr "Home"); ("blocks", VArr [])].

(* ===================================================================== *)
(** ** loaders.ts and the home page *)
(* ===================================================================== *)

Section Loaders.

Variable P : Type.
Variable JSON_stringify : P -> Completion (option string).
Variable net : Network.

(** [url.href] of each loader.  The string is made by [qs.stringify],
    [new URL] and [getStrapiURL], none of which is among the sources; it is
    taken as given. *)
Variable global_href : string.
Variable home_page_href : string.

Definition getGlobalData : Run TStrapiResponse :=
  api.get P JSON_stringify net global_href api.no_extra.

Definition getHomePageData : Run TStrapiResponse :=
  api.get P JSON_stringify net home_page_href api.no_extra.

End Loaders.

(** The two components the page places; they are referred to, not called. *)
Inductive Component : Type := HeroSection | FeaturesSection.

(** The element [<C key={index} data={block} />]. *)
Record Element : Type := mkElement {
  el_type : Component;
  el_key : nat;
  el_data : JsVal
}.

(** The element [<main>{children}</main>]; a child [null] is [None]. *)
Inductive Rendered : Type := Main (children : list (option Element)).

(** What the page does to its host: the calls of the request layer and of
    the error handler, and its own [console.log]. *)
Inductive PageEvent : Type :=
| ApiCall (e : Event)
| EvConsoleLog (label : string) (value : JsVal).

Definition blockRenderer (block : JsVal) (index : nat)
  : list PageEvent * Completion (option Element) :=
  match get block "__component" with
  | Abrupt t => ([], Abrupt t)
  | Normal component =>
      if strict_eq_str component "layout.hero-section" then
        ([], Normal (Some (mkElement HeroSection index block)))
      else if strict_eq_str component "layout.features-section" then
        ([EvConsoleLog "Sections data:" block],
         Normal (Some (mkElement FeaturesSection index block)))
      else ([], Normal None)
  end.

(** [items.map((block, index) => blockRenderer(block, index))], from
    [index] on.  An exception of the callback ends the loop. *)
Fixpoint map_blocks (items : list JsVal) (index : nat)
  : list PageEvent * Completion (list (option Element)) :=
  match items with
  | [] => ([], Normal [])
  | block :: rest =>
      match blockRenderer block index with
      | (tr, Abrupt t) => (tr, Abrupt t)
      | (tr, Normal el) =>
          match map_blocks rest (S index) with
          | (tr', Normal els) => ((tr ++ tr')%list, Normal (el :: els))
          | (tr', Abrupt t) => ((tr ++ tr')%list, Abrupt t)
          end
      end
  end.

(** [blocks.map(...)] on whatever [blocks] is: only an array has [map]. *)
Definition blocks_map (blocks : JsVal)
  : list PageEvent * Completion (list (option Element)) :=
  match blocks with
  | VArr items => map_blocks items 0
  | VUndefined | VNull => ([], Abrupt (TypeError_read blocks "map"))
  | _ => ([], Abrupt (ErrorObject "TypeError"
                        (VStr "blocks.map is not a function")))
  end.

Section HomePage.

Variable P : Type.
Variable JSON_stringify : P -> Completion (option string).
Variable net : Network.
Variable home_page_href : string.

(** The page component [Home]. *)
Definition Home : list PageEvent * Exit Rendered :=
  match getHomePageData P JSON_stringify net home_page_href with
  | (tr, Abrupt t) => (map ApiCall tr, Throws t)
  | (tr, Normal homePageData) =>
      match validateApiResponse (IsEnvelope homePageData)
              (Some "home page") with
      | (tr', Throws t) => (map ApiCall (tr ++ tr'), Throws t)
      | (tr', NotFound) => (map ApiCall (tr ++ tr'), NotFound)
      | (tr', Returns data) =>
          match get data "blocks" with
          | Abrupt t => (map ApiCall (tr ++ tr'), Throws t)
          | Normal blocks =>
              match blocks_map blocks with
              | (logs, Abrupt t) =>
                  ((map ApiCall (tr ++ tr') ++ logs)%list, Throws t)
              | (logs, Normal children) =>
                  ((map ApiCall (tr ++ tr') ++ logs)%list,
                   Returns (Main children))
              end
          end
      end
  end.

End HomePage.

Arguments getGlobalData {P} JSON_stringify net global_href.
Arguments getHomePageData {P} JSON_stringify net home_page_href.
Arguments Home {P} JSON_stringify net home_page_href.

(* ===================================================================== *)
(** ** Notions used in the further statements *)
(* ===================================================================== *)

Definition is_fetch (e : Event) : bool :=
  match e with EvFetch _ _ => true | _ => false end.

Definition is_set_timeout (e : Event) : bool :=
  match e with EvSetTimeout _ => true | _ => false end.

Definition is_clear_timeout (e : Event) : bool :=
  match e with EvClearTimeout => true | _ => false end.

Definition is_console_error (e : Event) : bool :=
  match e with EvConsoleError _ => true | _ => false end.

Definition is_json (e : Event) : bool :=
  match e with EvJson => true | _ => false end.

(** How often a kind of call occurs in a trace. *)
Definition calls (kind : Event -> bool) (tr : list Event) : nat :=
  length (filter kind tr).

(** The first header of a name. *)
Fixpoint header (name : string) (headers : list (string * string))
  : option string :=
  match headers with
  | [] => None
  | (n, v) :: rest => if String.eqb n name then Some v else header name rest
  end.

(** The thrown value is not [null] and not [undefined]. *)
Definition not_nullish_throw (t : Thrown) : Prop :=
  match t with
  | ErrorObject _ _ => True
  | ThrownValue v => nullish v = false
  end.

(** Nothing the network can throw, from [fetch] or from
    [response.json()], is [null] or [undefined]. *)
Definition network_throws_no_nullish (net : Network) : Prop :=
  match net with
  | Settles (Abrupt t) => not_nullish_throw t
  | Settles (Normal r) =>
      match r_json r with
      | Abrupt t => not_nullish_throw t
      | Normal _ => True
      end
  | TimerFires => True
  end.

Definition is_features_block (block : JsVal) : bool :=
  strict_eq_str (field block "__component") "layout.features-section".

Definition is_console_log (e : PageEvent) : bool :=
  match e with EvConsoleLog _ _ => true | _ => false end.

(** The calls made up to the point where [fetch] has settled. *)
Definition settled_prefix {P} (url : string) (options : ApiOptions P)
    (b : option string) : list Event :=
  [EvSetTimeout (timeout_of options);
   EvFetch url (init_sent options b);
   EvClearTimeout].

(** The calls made when the timer's callback runs first. *)
Definition aborted_prefix {P} (url : string) (options : ApiOptions P)
    (b : option string) : list Event :=
  [EvSetTimeout (timeout_of options);
   EvFetch url (init_sent options b);
   EvAbort; EvClearTimeout].

(** The calls that follow the settling of [fetch] are [response.json()]
    and [console.error] only. *)
Definition parse_or_log (e : Event) : bool := is_json e || is_console_error e.

(** A serialiser that meets a cycle in the payload. *)
Definition stringify_cycle (_ : unit) : Completion (option string) :=
  Abrupt (ErrorObject "TypeError"
            (VStr "Converting circular structure to JSON")).

(** Three blocks: a hero section, an unknown component and a features
    section. *)
Definition sample_blocks : list JsVal :=
  [VObj [("__component", VStr "layout.hero-section"); ("id", VNum 1)];
   VObj [("__component", VStr "layout.unknown"); ("id", VNum 2)];
   VObj [("__component", VStr "layout.features-section"); ("id", VNum 3)]].

(** The statements of the [try] block of [apiRequest]: what the [catch]
    clause gets to see is how this run completes. *)
Definition try_block {P} (JSON_stringify : P -> Completion (option string))
    (net : Network) (url : string) (options : ApiOptions P)
  : Run TStrapiResponse :=
  body <- request_body JSON_stringify (method options) (payload options) ;;
  response <- apiWithTimeout net url
                {| ri_method := Some (method options);
                   ri_headers := request_headers (authToken options);
                   ri_body := body; ri_signal := None |}
                (timeout_of options) ;;
  normalise (method options) url (authToken options) response.

(** [error.name === "AbortError"] for a caught value whose [name] can be
    read. *)
Definition named_AbortError (t : Thrown) : bool :=
  match thrown_get t "name" with
  | Normal name => strict_eq_str name "AbortError"
  | Abrupt _ => false
  end.






(* ===================================================================== *)
(** ** Basic facts about values and runs *)
(* ===================================================================== *)

Lemma outcome_bind {A B} (m : Run A) (f : A -> Run B) :
  outcome (bind m f)
  = match outcome m with
    | Normal a => outcome (f a)
    | Abrupt t => Abrupt t
    end.
Proof.
  destruct m as [tr [a | t]]; cbn; [ | reflexivity ].
  destruct (f a); reflexivity.
Qed.

Lemma outcome_try_catch {A} (m : Run A) (h : Thrown -> Run A) :
  outcome (try_catch m h)
  = match outcome m with
    | Normal a => Normal a
    | Abrupt t => outcome (h t)
    end.
Proof.
  destruct m as [tr [a | t]]; cbn; [ reflexivity | ].
  destruct (h t); reflexivity.
Qed.

Lemma falsy_opt_field (v : JsVal) (k : string) :
  truthy v = false -> opt_field v k = VUndefined.
Proof. destruct v; cbn; intros H; try reflexivity; discriminate H. Qed.

Lemma truthy_not_nullish (v : JsVal) : truthy v = true -> nullish v = false.
Proof. destruct v; cbn; intros H; try reflexivity; discriminate H. Qed.

Lemma get_not_nullish (v : JsVal) (k : string) :
  nullish v = false -> get v k = Normal (field v k).
Proof. unfold get; intros ->; reflexivity. Qed.

Lemma field_not_nullish (v : JsVal) (k : string) :
  field v k <> VUndefined -> nullish v = false.
Proof. destruct v; cbn; intros H; try reflexivity; now elim H. Qed.

Lemma not_DELETE (m : HTTPMethod) : m <> DELETE -> is_DELETE m = false.
Proof. destruct m; intros H; try reflexivity; now elim H. Qed.

Section NormaliserFacts.

Variable P : Type.
Variable JSON_stringify : P -> Completion (option string).

Lemma request_body_serialises (options : ApiOptions P) :
  serialises JSON_stringify options ->
  exists b,
    request_body JSON_stringify (method options) (payload options)
    = ([], Normal b).
Proof.
  unfold serialises, request_body.
  intros [H | [s H]].
  - rewrite H. now exists None.
  - destruct (bodyless (method options)); [ now exists None | ].
    rewrite H. now exists s.
Qed.

(** Once a response has come back, [apiRequest] is [normalise] on it,
    under the [catch] clause. *)
Lemma apiRequest_on_response (url : string) (options : ApiOptions P)
    (r : Response) :
  serialises JSON_stringify options ->
  exists b,
    apiRequest JSON_stringify (Settles (Normal r)) url options
    = try_catch
        (bind ([EvSetTimeout (timeout_of options);
                EvFetch url (init_sent options b);
                EvClearTimeout], Normal tt)
              (fun _ => normalise (method options) url
                          (authToken options) r))
        (on_caught (method options) url).
Proof.
  intros H. destruct (request_body_serialises options H) as [b Hb].
  exists b. unfold apiRequest. rewrite Hb. cbn.
  destruct (normalise (method options) url (authToken options) r)
    as [tr c].
  reflexivity.
Qed.


End NormaliserFacts.

(* ===================================================================== *)
(** ** [normalise] on each kind of response *)
(* ===================================================================== *)

Lemma normalise_DELETE (url : string) (tok : option string) (r : Response) :
  normalise DELETE url tok r = ([], Normal (delete_envelope r)).
Proof. reflexivity. Qed.

Lemma normalise_passes_error (m : HTTPMethod) (url : string)
    (tok : option string) (r : Response) (body : JsVal) :
  is_DELETE m = false ->
  ok r = false ->
  r_json r = Normal body ->
  truthy (field body "error") = true ->
  normalise m url tok r
  = ([EvJson;
      EvConsoleError
        (LogApiError m url (r_status r) (r_statusText r) body
           (token_given tok))],
     Normal (failure (field body "error") (r_status r))).
Proof.
  intros Hm Hok Hjson Herr.
  assert (Hnn : nullish body = false).
  { apply (field_not_nullish body "error"). intros E.
    rewrite E in Herr. discriminate Herr. }
  unfold normalise, response_json. rewrite Hm, Hok, Hjson. cbn.
  rewrite (get_not_nullish _ _ Hnn). cbn. rewrite Herr. reflexivity.
Qed.

Lemma normalise_synthesises_error (m : HTTPMethod) (url : string)
    (tok : option string) (r : Response) (body : JsVal) :
  is_DELETE m = false ->
  ok r = false ->
  r_json r = Normal body ->
  nullish body = false ->
  truthy (field body "error") = false ->
  normalise m url tok r
  = ([EvJson;
      EvConsoleError
        (LogApiError m url (r_status r) (r_statusText r) body
           (token_given tok))],
     Normal (failure
               (error_object (r_status r) (VStr "Error")
                  (VStr (status_text_or_generic r)))
               (r_status r))).
Proof.
  intros Hm Hok Hjson Hnn Herr.
  unfold normalise, response_json. rewrite Hm, Hok, Hjson. cbn.
  rewrite (get_not_nullish _ _ Hnn). cbn. rewrite Herr.
  unfold opt_field at 2 4. rewrite Hnn.
  rewrite (falsy_opt_field _ "name" Herr).
  rewrite (falsy_opt_field _ "message" Herr).
  unfold status_text_or_generic, js_or. cbn.
  destruct (String.eqb (r_statusText r) ""); reflexivity.
Qed.

Lemma normalise_success (m : HTTPMethod) (url : string)
    (tok : option string) (r : Response) (body : JsVal) :
  is_DELETE m = false ->
  ok r = true ->
  r_json r = Normal body ->
  nullish body = false ->
  normalise m url tok r
  = ([EvJson],
     Normal {| data := unwrapped body; error := VUndefined;
               meta := carried_meta body; success := VBool true;
               status := VNum (r_status r) |}).
Proof.
  intros Hm Hok Hjson Hnn.
  unfold normalise, response_json. rewrite Hm, Hok, Hjson. cbn.
  rewrite !(get_not_nullish _ _ Hnn). reflexivity.
Qed.

(** [normalise] raises only what [response.json()] raised, or the
    [TypeError] of a read on a body that is [null] or [undefined]. *)
Lemma normalise_raises (m : HTTPMethod) (url : string)
    (tok : option string) (r : Response) (t : Thrown) :
  snd (normalise m url tok r) = Abrupt t ->
  is_DELETE m = false
  /\ (r_json r = Abrupt t
      \/ exists body k, r_json r = Normal body /\ nullish body = true
                        /\ t = TypeError_read body k).
Proof.
  unfold normalise, response_json.
  destruct (is_DELETE m); [ cbn; discriminate | ].
  destruct (r_json r) as [body | t0].
  - destruct (ok r); cbn; unfold get; destruct (nullish body) eqn:Hnn; cbn;
      try discriminate.
    + intros H. injection H as <-. split; [ reflexivity | right ].
      now exists body, "data".
    + intros H. injection H as <-. split; [ reflexivity | right ].
      now exists body, "error".
    + destruct (truthy (field body "error")); discriminate.
  - cbn. intros H. injection H as <-. split; [ reflexivity | now left ].
Qed.

(* ===================================================================== *)
(** ** Properties of [apiRequest] *)
(* ===================================================================== *)

(** Reduce a run that got a response to [normalise] on that response. *)
Ltac on_response Hser :=
  match goal with
  | |- context [apiRequest ?js (Settles (Normal ?r)) ?url ?options] =>
      let b := fresh "b" in
      destruct (apiRequest_on_response _ js url options r Hser) as [b ->];
      rewrite outcome_try_catch, outcome_bind; cbn [outcome snd]
  end.

(** The scenarios of the specification. *)
Example scenario_get_home_page :
  outcome (apiRequest stringify_unit
             (responds 200 "OK"
                (VObj [("data", VObj [("id", VNum 1); ("title", VStr "Home")])]))
             "/api/home-page" (plain GET))
  = Normal {| data := VObj [("id", VNum 1); ("title", VStr "Home")];
              error := VUndefined; meta := VUndefined;
              success := VBool true; status := VNum 200 |}.
Proof. reflexivity. Qed.

Example scenario_get_404_redirects :
  exists e,
    outcome (apiRequest stringify_unit
               (responds 404 "Not Found" (VObj [("error", not_found_error)]))
               "/api/home-page" (plain GET))
    = Normal e
    /\ e = {| data := VUndefined; error := not_found_error;
              meta := VUndefined; success := VBool false;
              status := VNum 404 |}
    /\ handleApiError (IsEnvelope e) (Some "home page")
       = ([EvNotFound], NotFound).
Proof. eexists; repeat split. Qed.

Example scenario_delete_204 :
  outcome (apiRequest stringify_unit
             (Settles (Normal (mkResponse 204 "No Content"
                                 (Abrupt (ErrorObject "SyntaxError"
                                            (VStr "Unexpected end of JSON input"))))))
             "/api/articles/1" (plain DELETE))
  = Normal {| data := VBool true; error := VUndefined; meta := VUndefined;
              success := VBool true; status := VNum 204 |}.
Proof. reflexivity. Qed.

Example scenario_timeout_1ms :
  outcome (apiRequest stringify_unit TimerFires "/api/slow"
             (mkApiOptions GET None (Some 1) None))
  = Normal {| data := VUndefined;
              error := VObj [("status", VNum 408);
                             ("name", VStr "TimeoutError");
                             ("message",
                              VStr "The request timed out. Please try again.")];
              meta := VUndefined; success := VBool false;
              status := VNum 408 |}.
Proof. reflexivity. Qed.

(** C1, as the code has it.  For every 2xx response to a non-DELETE request
    whose parsed body is not [null]: [apiRequest] returns a success envelope
    with the real HTTP status; its [data] is the body's [data] field when
    that field is truthy, and the entire body otherwise (field absent or
    falsy); its [meta] is the body's [meta] field when that field is truthy,
    and [undefined] otherwise. *)
Theorem success_unwraps_truthy_data :
  forall (P : Type) (JSON_stringify : P -> Completion (option string))
         (url : string) (options : ApiOptions P) (r : Response)
         (body : JsVal),
    method options <> DELETE ->
    serialises JSON_stringify options ->
    ok r = true ->
    r_json r = Normal body ->
    body <> VNull ->
    body <> VUndefined ->
    outcome (apiRequest JSON_stringify (Settles (Normal r)) url options)
    = Normal {| data := if truthy (field body "data")
                        then field body "data" else body;
                error := VUndefined;
                meta := if truthy (field body "meta")
                        then field body "meta" else VUndefined;
                success := VBool true;
                status := VNum (r_status r) |}.
Proof.
  intros P JSON_stringify url options r body Hm Hser Hok Hjson Hn Hu.
  assert (Hnn : nullish body = false)
    by (destruct body; try reflexivity; congruence).
  on_response Hser.
  rewrite (normalise_success _ url (authToken options) r body
             (not_DELETE _ Hm) Hok Hjson Hnn).
  reflexivity.
Qed.

Lemma success_unwraps_truthy_data_witness :
  outcome (apiRequest stringify_unit
             (responds 200 "OK"
                (VObj [("data", VObj [("id", VNum 1); ("title", VStr "Home")])]))
             "/api/home-page" (plain GET))
  = Normal {| data := VObj [("id", VNum 1); ("title", VStr "Home")];
              error := VUndefined; meta := VUndefined;
              success := VBool true; status := VNum 200 |}.
Proof.
  apply (success_unwraps_truthy_data unit stringify_unit "/api/home-page"
           (plain GET)
           (mkResponse 200 "OK"
              (Normal (VObj [("data",
                              VObj [("id", VNum 1); ("title", VStr "Home")])])))
           (VObj [("data", VObj [("id", VNum 1); ("title", VStr "Home")])])).
  - discriminate.
  - left; reflexivity.
  - reflexivity.
  - reflexivity.
  - discriminate.
  - discriminate.
Defined.

(** C1 as the specification words it fails: a body that has a [data] field
    with a falsy value is returned whole, a falsy [meta] field is dropped,
    and the body [null] yields a failure envelope. *)
Lemma success_unwrap_counterexample :
  (field (VObj [("data", VNum 0)]) "data" = VNum 0
   /\ exists e,
        outcome (apiRequest stringify_unit
                   (responds 200 "OK" (VObj [("data", VNum 0)]))
                   "/api/articles/count" (plain GET)) = Normal e
        /\ success e = VBool true
        /\ data e = VObj [("data", VNum 0)]
        /\ data e <> VNum 0)
  /\ (field (VObj [("data", VStr "x"); ("meta", VNum 0)]) "meta" = VNum 0
      /\ exists e,
           outcome (apiRequest stringify_unit
                      (responds 200 "OK"
                         (VObj [("data", VStr "x"); ("meta", VNum 0)]))
                      "/api/articles/count" (plain GET)) = Normal e
           /\ meta e = VUndefined)
  /\ (exists e,
        outcome (apiRequest stringify_unit (responds 200 "OK" VNull)
                   "/api/articles/count" (plain GET)) = Normal e
        /\ success e = VBool false
        /\ status e = VNum 500
        /\ data e <> VNull).
Proof.
  split; [ | split ].
  - split; [ reflexivity | ].
    eexists; split; [ reflexivity | ].
    cbn; repeat split; discriminate.
  - split; [ reflexivity | ].
    eexists; split; reflexivity.
  - eexists; split; [ reflexivity | ].
    cbn; repeat split; discriminate.
Qed.

(** C2.  For every non-2xx response to a non-DELETE request whose parsed
    body contains a structured [error] object, [apiRequest] returns a
    failure envelope whose [error] is that object, unchanged, with [success]
    false and [status] the real HTTP status. *)
Theorem structured_error_passes_through :
  forall (P : Type) (JSON_stringify : P -> Completion (option string))
         (url : string) (options : ApiOptions P) (r : Response)
         (body : JsVal) (props : list (string * JsVal)),
    method options <> DELETE ->
    serialises JSON_stringify options ->
    ok r = false ->
    r_json r = Normal body ->
    field body "error" = VObj props ->
    outcome (apiRequest JSON_stringify (Settles (Normal r)) url options)
    = Normal {| data := VUndefined;
                error := VObj props;
                meta := VUndefined;
                success := VBool false;
                status := VNum (r_status r) |}.
Proof.
  intros P JSON_stringify url options r body props Hm Hser Hok Hjson Herr.
  on_response Hser.
  rewrite (normalise_passes_error _ url (authToken options) r body
             (not_DELETE _ Hm) Hok Hjson)
    by (rewrite Herr; reflexivity).
  cbn. rewrite Herr. reflexivity.
Qed.

Lemma structured_error_passes_through_witness :
  outcome (apiRequest stringify_unit
             (responds 404 "Not Found" (VObj [("error", not_found_error)]))
             "/api/home-page" (plain GET))
  = Normal {| data := VUndefined; error := not_found_error;
              meta := VUndefined; success := VBool false;
              status := VNum 404 |}.
Proof.
  apply (structured_error_passes_through unit stringify_unit
           "/api/home-page" (plain GET)
           (mkResponse 404 "Not Found"
              (Normal (VObj [("error", not_found_error)])))
           (VObj [("error", not_found_error)])).
  - discriminate.
  - left; reflexivity.
  - reflexivity.
  - reflexivity.
  - reflexivity.
Defined.

(** C3, as the code has it.  For every non-2xx response to a non-DELETE
    request whose parsed body is not [null] and has no truthy [error] field,
    [apiRequest] synthesises the envelope's error with the real HTTP status,
    the name "Error", and as message the HTTP status text when that is not
    empty, else "An error occurred".  A [message] field of the body is not
    read. *)
Theorem unstructured_error_is_synthesised :
  forall (P : Type) (JSON_stringify : P -> Completion (option string))
         (url : string) (options : ApiOptions P) (r : Response)
         (body : JsVal),
    method options <> DELETE ->
    serialises JSON_stringify options ->
    ok r = false ->
    r_json r = Normal body ->
    body <> VNull ->
    body <> VUndefined ->
    truthy (field body "error") = false ->
    outcome (apiRequest JSON_stringify (Settles (Normal r)) url options)
    = Normal {| data := VUndefined;
                error :=
                  VObj [("status", VNum (r_status r));
                        ("name", VStr "Error");
                        ("message",
                         VStr (if String.eqb (r_statusText r) ""
                               then "An error occurred"
                               else r_statusText r))];
                meta := VUndefined;
                success := VBool false;
                status := VNum (r_status r) |}.
Proof.
  intros P JSON_stringify url options r body Hm Hser Hok Hjson Hn Hu Herr.
  assert (Hnn : nullish body = false)
    by (destruct body; try reflexivity; congruence).
  on_response Hser.
  rewrite (normalise_synthesises_error _ url (authToken options) r body
             (not_DELETE _ Hm) Hok Hjson Hnn Herr).
  reflexivity.
Qed.

Lemma unstructured_error_is_synthesised_witness :
  outcome (apiRequest stringify_unit
             (responds 502 "Bad Gateway" (VStr "upstream down"))
             "/api/global" (plain GET))
  = Normal {| data := VUndefined;
              error := VObj [("status", VNum 502); ("name", VStr "Error");
                             ("message", VStr "Bad Gateway")];
              meta := VUndefined; success := VBool false;
              status := VNum 502 |}.
Proof.
  apply (unstructured_error_is_synthesised unit stringify_unit
           "/api/global" (plain GET)
           (mkResponse 502 "Bad Gateway" (Normal (VStr "upstream down")))
           (VStr "upstream down")).
  - discriminate.
  - left; reflexivity.
  - reflexivity.
  - reflexivity.
  - discriminate.
  - discriminate.
  - reflexivity.
Defined.

(** C3 as the specification words it fails: the body's [message] field is
    not used (the status text is); an [error] field that is truthy without
    being an object is passed through instead of a synthesised error; and
    the body [null] yields the synthetic status 500, not the real one. *)
Lemma synthesised_message_counterexample :
  (field (VObj [("message", VStr "Invalid payload")]) "error" = VUndefined
   /\ exists e,
        outcome (apiRequest stringify_unit
                   (responds 400 "Bad Request"
                      (VObj [("message", VStr "Invalid payload")]))
                   "/api/articles" (plain GET)) = Normal e
        /\ field (error e) "message" = VStr "Bad Request"
        /\ field (error e) "message" <> VStr "Invalid payload")
  /\ (exists e,
        outcome (apiRequest stringify_unit
                   (responds 401 "Unauthorized"
                      (VObj [("error", VStr "Unauthorized")]))
                   "/api/articles" (plain GET)) = Normal e
        /\ error e = VStr "Unauthorized"
        /\ field (error e) "name" <> VStr "Error")
  /\ (exists e,
        outcome (apiRequest stringify_unit (responds 503 "" VNull)
                   "/api/articles" (plain GET)) = Normal e
        /\ status e = VNum 500
        /\ field (error e) "name" = VStr "NetworkError"
        /\ status e <> VNum 503).
Proof.
  split; [ | split ].
  - split; [ reflexivity | ].
    eexists; split; [ reflexivity | ].
    cbn; repeat split; discriminate.
  - eexists; split; [ reflexivity | ].
    cbn; repeat split; discriminate.
  - eexists; split; [ reflexivity | ].
    cbn; repeat split; discriminate.
Qed.



(** The calls that [apiWithTimeout] makes: the timer is armed, [fetch] gets
    the controller's own signal whatever [init] carried, and the timer is
    cleared however [fetch] settles. *)
Lemma apiWithTimeout_run (net : Network) (input : string)
    (init : RequestInit) (ms : Z) :
  apiWithTimeout net input init ms
  = match net with
    | Settles c =>
        ([EvSetTimeout ms;
          EvFetch input (with_signal init ControllerSignal);
          EvClearTimeout], c)
    | TimerFires =>
        ([EvSetTimeout ms;
          EvFetch input (with_signal init ControllerSignal);
          EvAbort; EvClearTimeout], Abrupt AbortError)
    end.
Proof. destruct net as [[r | t] | ]; reflexivity. Qed.

(** What the [catch] clause answers, by the [name] of what it caught. *)
Lemma on_caught_by_name (m : HTTPMethod) (url : string) (t : Thrown)
    (name : JsVal) :
  thrown_get t "name" = Normal name ->
  outcome (on_caught m url t)
  = if strict_eq_str name "AbortError" then Normal timeout_envelope
    else Normal (failure
                   (error_object 500 (VStr "NetworkError")
                      (match t with
                       | ErrorObject _ message => message
                       | ThrownValue _ => VStr "Something went wrong"
                       end))
                   500).
Proof.
  intros H. unfold on_caught. rewrite H. cbn.
  destruct (strict_eq_str name "AbortError"); [ reflexivity | ].
  destruct t; reflexivity.
Qed.




Lemma normalise_envelope (m : HTTPMethod) (url : string)
    (tok : option string) (r : Response) (e : TStrapiResponse) :
  outcome (normalise m url tok r) = Normal e ->
  one_of_data_or_error e /\ status e = VNum (r_status r).
Proof.
  unfold normalise.
  destruct (is_DELETE m).
  - cbn. intros H. injection H as <-.
    destruct (ok r); cbn; split; try reflexivity;
      [ left | right ]; repeat split.
  - unfold response_json.
    destruct (r_json r) as [body | t]; [ | cbn; discriminate ].
    destruct (nullish body) eqn:Hnn.
    + destruct (ok r); cbn; unfold get; rewrite Hnn; cbn; discriminate.
    + destruct (ok r); cbn; unfold get; rewrite Hnn; cbn.
      * intros H. injection H as <-. cbn. split; [ left | reflexivity ].
        repeat split.
        destruct (truthy (field body "data")) eqn:Ht;
          [ now apply truthy_not_nullish | exact Hnn ].
      * destruct (truthy (field body "error")) eqn:Ht; cbn;
          intros H; injection H as <-; cbn;
          (split; [ right | reflexivity ]); repeat split.
        now apply truthy_not_nullish.
Qed.

Lemma on_caught_envelope (m : HTTPMethod) (url : string) (t : Thrown)
    (e : TStrapiResponse) :
  outcome (on_caught m url t) = Normal e ->
  one_of_data_or_error e /\ (status e = VNum 408 \/ status e = VNum 500).
Proof.
  destruct (thrown_get t "name") as [name | t'] eqn:Hname.
  - rewrite (on_caught_by_name m url t name Hname).
    destruct (strict_eq_str name "AbortError");
      intros H; injection H as <-; cbn;
      (split; [ right; repeat split | ]); [ left | right ]; reflexivity.
  - unfold on_caught. rewrite Hname. discriminate.
Qed.

(** How the [try] block completes, by what the serialiser and the network
    do. *)
Lemma try_block_outcome (P : Type)
    (JSON_stringify : P -> Completion (option string))
    (net : Network) (url : string) (options : ApiOptions P) :
  outcome (try_block JSON_stringify net url options)
  = match outcome (request_body JSON_stringify (method options)
                     (payload options)) with
    | Abrupt t => Abrupt t
    | Normal _ =>
        match net with
        | Settles (Normal r) =>
            outcome (normalise (method options) url (authToken options) r)
        | Settles (Abrupt t) => Abrupt t
        | TimerFires => Abrupt AbortError
        end
    end.
Proof.
  unfold try_block. rewrite outcome_bind.
  destruct (outcome (request_body JSON_stringify (method options)
                       (payload options))) as [b | t]; [ | reflexivity ].
  rewrite outcome_bind, apiWithTimeout_run.
  destruct net as [[r | t] | ]; reflexivity.
Qed.

(** What the [catch] clause answers, by the name of what it caught. *)
Lemma on_caught_status (m : HTTPMethod) (url : string) (t : Thrown)
    (e : TStrapiResponse) :
  outcome (on_caught m url t) = Normal e ->
  if named_AbortError t
  then status e = VNum 408 /\ field (error e) "name" = VStr "TimeoutError"
  else status e = VNum 500 /\ field (error e) "name" = VStr "NetworkError".
Proof.
  unfold named_AbortError.
  destruct (thrown_get t "name") as [name | t'] eqn:Hname.
  - rewrite (on_caught_by_name m url t name Hname).
    destruct (strict_eq_str name "AbortError");
      intros H; injection H as <-; split; reflexivity.
  - unfold on_caught. rewrite Hname. discriminate.
Qed.

(** C5.  Every envelope that [apiRequest] returns has exactly one of [data]
    and [error] populated, [data] under [success: true] and [error] under
    [success: false].  Its [status] is the HTTP status of the response when
    the [try] block completed on that response; it is 408, with the name
    "TimeoutError", when the block was left by an exception named
    "AbortError", as it is whenever the timer's callback ran first; and it
    is 500, with the name "NetworkError", for every other exception: a
    [fetch] that rejects, a body that does not parse. *)
Theorem envelope_invariants :
  forall (P : Type) (JSON_stringify : P -> Completion (option string))
         (net : Network) (url : string) (options : ApiOptions P)
         (e : TStrapiResponse),
    outcome (apiRequest JSON_stringify net url options) = Normal e ->
    one_of_data_or_error e
    /\ match outcome (try_block JSON_stringify net url options) with
       | Normal _ =>
           exists r, net = Settles (Normal r)
                     /\ status e = VNum (r_status r)
       | Abrupt t =>
           if named_AbortError t
           then status e = VNum 408
                /\ field (error e) "name" = VStr "TimeoutError"
           else status e = VNum 500
                /\ field (error e) "name" = VStr "NetworkError"
       end
    /\ (serialises JSON_stringify options ->
        (net = TimerFires -> status e = VNum 408)
        /\ (forall t, net = Settles (Abrupt t) ->
                      named_AbortError t = false -> status e = VNum 500)
        /\ (forall r t, net = Settles (Normal r) ->
                        method options <> DELETE ->
                        r_json r = Abrupt t ->
                        named_AbortError t = false -> status e = VNum 500)
        /\ (forall r, net = Settles (Normal r) ->
                      (method options = DELETE
                       \/ exists body, r_json r = Normal body
                                       /\ nullish body = false) ->
                      status e = VNum (r_status r))).
Proof.
  intros P JSON_stringify net url options e Hrun.
  change (outcome (try_catch (try_block JSON_stringify net url options)
                     (on_caught (method options) url)) = Normal e) in Hrun.
  rewrite outcome_try_catch in Hrun.
  pose proof (try_block_outcome P JSON_stringify net url options) as Htb.
  assert (Hinv : one_of_data_or_error e
                 /\ match outcome (try_block JSON_stringify net url
                                     options) with
                    | Normal _ =>
                        exists r, net = Settles (Normal r)
                                  /\ status e = VNum (r_status r)
                    | Abrupt t =>
                        if named_AbortError t
                        then status e = VNum 408
                             /\ field (error e) "name" = VStr "TimeoutError"
                        else status e = VNum 500
                             /\ field (error e) "name" = VStr "NetworkError"
                    end).
  { destruct (outcome (try_block JSON_stringify net url options))
      as [e0 | t] eqn:Ho.
    - injection Hrun as ->.
      destruct (outcome (request_body JSON_stringify (method options)
                           (payload options))); [ | discriminate Htb ].
      destruct net as [[r | t] | ]; try discriminate Htb.
      symmetry in Htb.
      destruct (normalise_envelope _ _ _ _ _ Htb) as [Hinv Hst].
      split; [ exact Hinv | now exists r ].
    - split; [ now destruct (on_caught_envelope _ _ _ _ Hrun)
             | exact (on_caught_status (method options) url t e Hrun) ]. }
  destruct Hinv as [Hinv Hst].
  split; [ exact Hinv | split; [ exact Hst | ] ].
  intros Hser.
  destruct (request_body_serialises P JSON_stringify options Hser)
    as [b Hb].
  unfold outcome at 2 in Htb. rewrite Hb in Htb. cbn [snd] in Htb.
  rewrite Htb in Hst, Hrun.
  split; [ | split; [ | split ] ].
  - intros ->. apply Hst.
  - intros t -> Ht. rewrite Ht in Hst. apply Hst.
  - intros r t -> Hm Hjson Ht.
    assert (Hn : outcome (normalise (method options) url
                            (authToken options) r) = Abrupt t).
    { unfold normalise, response_json.
      rewrite (not_DELETE _ Hm), Hjson. reflexivity. }
    rewrite Hn, Ht in Hst. apply Hst.
  - intros r -> Hcase.
    destruct (outcome (normalise (method options) url
                         (authToken options) r)) as [e0 | t] eqn:Hn.
    + destruct Hst as [r' [Hr' Hst]]. injection Hr' as <-. exact Hst.
    + exfalso. unfold outcome in Hn.
      apply normalise_raises in Hn as [Hd Hj].
      destruct Hcase as [Hm | [body [Hjson Hnn]]].
      * rewrite Hm in Hd. discriminate Hd.
      * rewrite Hjson in Hj.
        destruct Hj as [Hj | [body' [k [Hj [Hnn' _]]]]];
          [ discriminate Hj | ].
        injection Hj as <-. rewrite Hnn in Hnn'. discriminate Hnn'.
Qed.

Lemma envelope_invariants_witness :
  one_of_data_or_error timeout_envelope
  /\ (status timeout_envelope = VNum 408
      /\ field (error timeout_envelope) "name" = VStr "TimeoutError")
  /\ (serialises stringify_unit (plain GET) ->
      (TimerFires = TimerFires -> status timeout_envelope = VNum 408)
      /\ (forall t, TimerFires = Settles (Abrupt t) ->
                    named_AbortError t = false ->
                    status timeout_envelope = VNum 500)
      /\ (forall r t, TimerFires = Settles (Normal r) ->
                      method (plain GET) <> DELETE ->
                      r_json r = Abrupt t ->
                      named_AbortError t = false ->
                      status timeout_envelope = VNum 500)
      /\ (forall r, TimerFires = Settles (Normal r) ->
                    (method (plain GET) = DELETE
                     \/ exists body, r_json r = Normal body
                                     /\ nullish body = false) ->
                    status timeout_envelope = VNum (r_status r))).
Proof.
  apply (envelope_invariants unit stringify_unit TimerFires
           "/api/home-page" (plain GET) timeout_envelope).
  reflexivity.
Defined.

(** Every thrown value that has a [name] to read is converted by the
    [catch] clause: to the timeout envelope when the name is "AbortError",
    and otherwise to status 500, name "NetworkError" and the exception's
    message when it is an [Error], else "Something went wrong". *)
Lemma on_caught_converts (m : HTTPMethod) (url : string) (t : Thrown) :
  (forall v, t = ThrownValue v -> nullish v = false) ->
  exists name,
    thrown_get t "name" = Normal name
    /\ on_caught m url t
       = if strict_eq_str name "AbortError"
         then ([EvConsoleError LogTimedOut], Normal timeout_envelope)
         else ([EvConsoleError (LogUnexpected m url t)],
               Normal (failure
                         (error_object 500 (VStr "NetworkError")
                            (match t with
                             | ErrorObject _ message => message
                             | ThrownValue _ => VStr "Something went wrong"
                             end))
                         500)).
Proof.
  intros Hv. destruct t as [name message | v].
  - exists (VStr name). split; [ reflexivity | ].
    unfold on_caught. cbn.
    destruct (String.eqb name "AbortError"); reflexivity.
  - specialize (Hv v eq_refl). exists (field v "name").
    split; [ now apply get_not_nullish | ].
    unfold on_caught. cbn. rewrite (get_not_nullish _ _ Hv). cbn.
    destruct (strict_eq_str (field v "name") "AbortError"); reflexivity.
Qed.

(** The only way out of the [catch] clause other than by an envelope:
    reading [name] on a caught [null] or [undefined]. *)
Lemma on_caught_raises (m : HTTPMethod) (url : string) (t t' : Thrown) :
  outcome (on_caught m url t) = Abrupt t' ->
  exists v, t = ThrownValue v /\ nullish v = true
            /\ t' = TypeError_read v "name".
Proof.
  destruct t as [name message | v].
  - unfold on_caught. cbn.
    destruct (String.eqb name "AbortError"); discriminate.
  - destruct (nullish v) eqn:Hv.
    + unfold on_caught, thrown_get, get. rewrite Hv. cbn.
      intros H. injection H as <-. now exists v.
    + destruct (on_caught_converts m url (ThrownValue v)) as [n [_ E]].
      { intros v' H. injection H as <-. exact Hv. }
      rewrite E. destruct (strict_eq_str n "AbortError"); discriminate.
Qed.

(** C6 fails on the code.  [apiRequest] raises a [TypeError] out of its
    [catch] clause when the value it caught is [undefined] or [null]:
    the clause reads [error.name] before testing what [error] is.  Here a
    POST whose payload's [toJSON] throws [undefined], whatever the network
    does, and a GET whose [fetch] rejects with [null]. *)
Theorem raises_when_nullish_is_thrown :
  (forall net : Network,
      apiRequest stringify_throws_undefined net "/api/articles"
        (mkApiOptions POST (Some tt) None None)
      = ([], Abrupt (ErrorObject "TypeError"
                       (VStr "Cannot read properties of undefined (reading 'name')"))))
  /\ outcome (apiRequest stringify_unit
                (Settles (Abrupt (ThrownValue VNull)))
                "/api/articles" (plain GET))
     = Abrupt (ErrorObject "TypeError"
                 (VStr "Cannot read properties of null (reading 'name')")).
Proof. split; [ intros net | ]; reflexivity. Qed.

(** What holds of C6 on the code: [apiRequest] returns an envelope unless
    the value thrown inside its [try] block is [null] or [undefined]. *)
Lemma apiRequest_raises_only_on_nullish
    (P : Type) (JSON_stringify : P -> Completion (option string))
    (net : Network) (url : string) (options : ApiOptions P) (t' : Thrown) :
  outcome (apiRequest JSON_stringify net url options) = Abrupt t' ->
  exists v, nullish v = true /\ t' = TypeError_read v "name".
Proof.
  unfold apiRequest. rewrite outcome_try_catch.
  match goal with
  | |- match ?c with _ => _ end = _ -> _ => destruct c as [e | t]
  end; [ discriminate | ].
  intros H. destruct (on_caught_raises _ _ _ _ H) as [v [_ [Hv Ht]]].
  now exists v.
Qed.

(** C7.  For a DELETE request that gets a response, [response.json()] is
    never called; a 2xx status yields the success envelope with
    [data = true], any other status the failure envelope with the real
    status and the message "Failed to delete resource"; and neither the
    body nor the status text of the response has any influence. *)
Theorem delete_ignores_body :
  forall (P : Type) (JSON_stringify : P -> Completion (option string))
         (url : string) (payload : option P) (ms : option Z)
         (tok : option string) (r : Response),
    let run r :=
      apiRequest JSON_stringify (Settles (Normal r)) url
        (mkApiOptions DELETE payload ms tok) in
    ~ In EvJson (trace (run r))
    /\ outcome (run r)
       = Normal (if ok r
                 then {| data := VBool true; error := VUndefined;
                         meta := VUndefined; success := VBool true;
                         status := VNum (r_status r) |}
                 else {| data := VUndefined;
                         error :=
                           VObj [("status", VNum (r_status r));
                                 ("name", VStr "Error");
                                 ("message",
                                  VStr "Failed to delete resource")];
                         meta := VUndefined; success := VBool false;
                         status := VNum (r_status r) |})
    /\ (forall (text : string) (json : Completion JsVal),
           run (mkResponse (r_status r) text json) = run r).
Proof.
  intros P JSON_stringify url payload ms tok r run.
  assert (E : forall r',
             run r'
             = ([EvSetTimeout (match ms with Some t => t | None => 8000 end);
                 EvFetch url
                   {| ri_method := Some DELETE;
                      ri_headers := request_headers tok;
                      ri_body := None;
                      ri_signal := Some ControllerSignal |};
                 EvClearTimeout],
                Normal (delete_envelope r'))) by reflexivity.
  split; [ | split ].
  - rewrite E. cbn. intros [H | [H | [H | []]]]; discriminate H.
  - rewrite E. unfold delete_envelope. cbn.
    destruct (ok r); reflexivity.
  - intros text json. rewrite !E. reflexivity.
Qed.

(* ===================================================================== *)
(** ** Properties of the error handler *)
(* ===================================================================== *)

Lemma strict_eq_num_true (v : JsVal) (n : Z) :
  strict_eq_num v n = true <-> v = VNum n.
Proof.
  destruct v; cbn; split; intros H; try discriminate H.
  - apply Z.eqb_eq in H. now subst.
  - injection H as ->. apply Z.eqb_refl.
Qed.

Lemma handleApiError_envelope (e : TStrapiResponse)
    (label : option string) :
  handleApiError (IsEnvelope e) label
  = if is_404 e then ([EvNotFound], NotFound)
    else if truthy (success e) && truthy (data e) then ([], Returns tt)
    else ([], Throws (new_Error
                        (if truthy (error_message e) then error_message e
                         else VStr (failed_to_load label)))).
Proof.
  unfold handleApiError, is_404, error_message, notFound, js_or.
  destruct (strict_eq_num (opt_field (error e) "status") 404);
    [ reflexivity | ].
  destruct (truthy (success e)), (truthy (data e)); reflexivity.
Qed.

Lemma validateApiResponse_envelope (e : TStrapiResponse)
    (label : option string) :
  validateApiResponse (IsEnvelope e) label
  = if is_404 e then ([EvNotFound], NotFound)
    else if truthy (success e) && truthy (data e)
         then ([], Returns (data e))
    else ([], Throws (new_Error
                        (if truthy (error_message e) then error_message e
                         else VStr (failed_to_load label)))).
Proof.
  unfold validateApiResponse. rewrite handleApiError_envelope.
  destruct (is_404 e); [ reflexivity | ].
  destruct (truthy (success e) && truthy (data e)); reflexivity.
Qed.

(** C8, as the code has it.  [validateApiResponse] returns exactly
    [envelope.data] whenever [success === true], [data] is truthy and the
    error status is not 404.  Whenever it returns, the envelope is present,
    its [success] and [data] are truthy, its error status is not 404 and the
    value returned is its [data].  In every other case it raises an [Error]
    or calls [notFound()], and does not return. *)
Theorem validate_returns_truthy_data :
  (forall (e : TStrapiResponse) (label : option string),
      success e = VBool true ->
      truthy (data e) = true ->
      is_404 e = false ->
      validateApiResponse (IsEnvelope e) label = ([], Returns (data e)))
  /\ (forall (response : MaybeEnvelope) (label : option string) (v : JsVal),
         snd (validateApiResponse response label) = Returns v ->
         exists e,
           response = IsEnvelope e /\ v = data e
           /\ truthy (success e) = true /\ truthy (data e) = true
           /\ is_404 e = false)
  /\ (forall (response : MaybeEnvelope) (label : option string),
         (exists v, validateApiResponse response label = ([], Returns v))
         \/ (exists message,
                validateApiResponse response label
                = ([], Throws (new_Error message)))
         \/ validateApiResponse response label = ([EvNotFound], NotFound)).
Proof.
  split; [ | split ].
  - intros e label Hs Hd H4. rewrite validateApiResponse_envelope.
    rewrite H4, Hs, Hd. reflexivity.
  - intros [ | | e] label v; try (cbn; discriminate).
    rewrite validateApiResponse_envelope.
    destruct (is_404 e) eqn:H4; [ cbn; discriminate | ].
    destruct (truthy (success e)) eqn:Hs; [ | cbn; discriminate ].
    destruct (truthy (data e)) eqn:Hd; [ | cbn; discriminate ].
    cbn. intros H. injection H as <-. exists e.
    repeat split; assumption.
  - intros [ | | e] label.
    + right; left. eexists; reflexivity.
    + right; left. eexists; reflexivity.
    + rewrite validateApiResponse_envelope.
      destruct (is_404 e); [ right; right; reflexivity | ].
      destruct (truthy (success e) && truthy (data e)).
      * left. eexists; reflexivity.
      * right; left. eexists; reflexivity.
Qed.

Lemma validate_returns_truthy_data_witness :
  validateApiResponse
    (IsEnvelope {| data := home_page; error := VUndefined;
                   meta := VUndefined; success := VBool true;
                   status := VNum 200 |})
    (Some "home page")
  = ([], Returns home_page).
Proof.
  apply (proj1 validate_returns_truthy_data
           {| data := home_page; error := VUndefined; meta := VUndefined;
              success := VBool true; status := VNum 200 |}
           (Some "home page")); reflexivity.
Defined.

(** C8 as the specification words it fails: an envelope with
    [success === true] whose [data] is present but falsy (the count 0, as
    [apiRequest] returns it for the body [0]) is not returned; an [Error]
    is raised. *)
Lemma validate_present_data_counterexample :
  outcome (apiRequest stringify_unit (responds 200 "OK" (VNum 0))
             "/api/articles/count" (plain GET))
  = Normal {| data := VNum 0; error := VUndefined; meta := VUndefined;
              success := VBool true; status := VNum 200 |}
  /\ validateApiResponse
       (IsEnvelope {| data := VNum 0; error := VUndefined;
                      meta := VUndefined; success := VBool true;
                      status := VNum 200 |})
       (Some "article count")
     = ([], Throws (new_Error (VStr "Failed to load article count")))
  /\ snd (validateApiResponse
            (IsEnvelope {| data := VNum 0; error := VUndefined;
                           meta := VUndefined; success := VBool true;
                           status := VNum 200 |})
            (Some "article count"))
     <> Returns (VNum 0).
Proof. repeat split. discriminate. Qed.

(** C9, as the code has it.  [handleApiError] ends in exactly one way for
    each state of the envelope, the states being tested in this order.
    Absent ([null] or [undefined]): it raises "Failed to load <label>".
    Error status [=== 404]: it calls [notFound()] and does nothing else.
    Otherwise, when [success] or [data] is falsy: it raises an [Error] made
    from the envelope's error message when that is truthy (a non-empty
    string, in particular), and "Failed to load <label>" when it is absent
    or falsy.  Otherwise ([success] truthy and [data] truthy): it returns,
    having called nothing. *)
Theorem handleApiError_terminal_actions :
  (forall label : option string,
      handleApiError IsNull label
      = ([], Throws (new_Error (VStr (failed_to_load label))))
      /\ handleApiError IsUndefined label
         = ([], Throws (new_Error (VStr (failed_to_load label)))))
  /\ (forall name : string,
         name <> "" ->
         failed_to_load (Some name) = "Failed to load " ++ name)
  /\ (forall (e : TStrapiResponse) (label : option string),
         opt_field (error e) "status" = VNum 404 ->
         handleApiError (IsEnvelope e) label = ([EvNotFound], NotFound))
  /\ (forall (e : TStrapiResponse) (label : option string),
         opt_field (error e) "status" <> VNum 404 ->
         truthy (success e) = false \/ truthy (data e) = false ->
         handleApiError (IsEnvelope e) label
         = ([], Throws (new_Error
                          (if truthy (opt_field (error e) "message")
                           then opt_field (error e) "message"
                           else VStr (failed_to_load label))))
         /\ (forall message : string,
                message <> "" ->
                opt_field (error e) "message" = VStr message ->
                handleApiError (IsEnvelope e) label
                = ([], Throws (new_Error (VStr message)))))
  /\ (forall (e : TStrapiResponse) (label : option string),
         opt_field (error e) "status" <> VNum 404 ->
         truthy (success e) = true ->
         truthy (data e) = true ->
         handleApiError (IsEnvelope e) label = ([], Returns tt))
  /\ (forall (response : MaybeEnvelope) (label : option string),
         snd (handleApiError response label) = Returns tt ->
         exists e, response = IsEnvelope e
                   /\ opt_field (error e) "status" <> VNum 404
                   /\ truthy (success e) = true
                   /\ truthy (data e) = true).
Proof.
  assert (N404 : forall e, opt_field (error e) "status" <> VNum 404 ->
                           is_404 e = false).
  { intros e H. unfold is_404.
    destruct (strict_eq_num (opt_field (error e) "status") 404) eqn:E;
      [ | reflexivity ].
    apply strict_eq_num_true in E. contradiction. }
  split; [ | split; [ | split; [ | split; [ | split ] ] ] ].
  - intros label. split; reflexivity.
  - intros name Hne. unfold failed_to_load.
    apply String.eqb_neq in Hne. rewrite Hne. reflexivity.
  - intros e label H. rewrite handleApiError_envelope.
    unfold is_404. rewrite H. reflexivity.
  - intros e label H4 Hfalsy. rewrite handleApiError_envelope.
    rewrite (N404 e H4).
    assert (Hand : truthy (success e) && truthy (data e) = false).
    { destruct Hfalsy as [-> | ->];
        [ reflexivity | apply andb_false_r ]. }
    rewrite Hand. unfold error_message. split; [ reflexivity | ].
    intros message Hne Hm. rewrite Hm. cbn.
    apply String.eqb_neq in Hne. rewrite Hne. reflexivity.
  - intros e label H4 Hs Hd. rewrite handleApiError_envelope.
    rewrite (N404 e H4), Hs, Hd. reflexivity.
  - intros [ | | e] label; try (cbn; discriminate).
    rewrite handleApiError_envelope. unfold is_404.
    destruct (strict_eq_num (opt_field (error e) "status") 404) eqn:E4;
      [ cbn; discriminate | ].
    destruct (truthy (success e)) eqn:Hs; [ | cbn; discriminate ].
    destruct (truthy (data e)) eqn:Hd; [ | cbn; discriminate ].
    intros _. exists e.
    split; [ reflexivity | split; [ | split; assumption ] ].
    intros H. apply strict_eq_num_true in H. rewrite H in E4.
    discriminate E4.
Qed.

Lemma handleApiError_terminal_actions_witness :
  handleApiError
    (IsEnvelope {| data := VUndefined; error := not_found_error;
                   meta := VUndefined; success := VBool false;
                   status := VNum 404 |})
    (Some "home page")
  = ([EvNotFound], NotFound)
  /\ handleApiError
       (IsEnvelope
          {| data := VUndefined;
             error := VObj [("status", VNum 403);
                            ("name", VStr "ForbiddenError");
                            ("message", VStr "Forbidden")];
             meta := VUndefined; success := VBool false;
             status := VNum 403 |})
       (Some "home page")
     = ([], Throws (new_Error (VStr "Forbidden")))
  /\ handleApiError
       (IsEnvelope {| data := home_page; error := VUndefined;
                      meta := VUndefined; success := VBool true;
                      status := VNum 200 |})
       (Some "home page")
     = ([], Returns tt)
  /\ failed_to_load (Some "home page") = "Failed to load home page".
Proof.
  destruct handleApiError_terminal_actions
    as [_ [Hl [H404 [Hother [Hok _]]]]].
  split; [ | split; [ | split ] ].
  - apply H404. reflexivity.
  - apply (proj1 (Hother
                    {| data := VUndefined;
                       error := VObj [("status", VNum 403);
                                      ("name", VStr "ForbiddenError");
                                      ("message", VStr "Forbidden")];
                       meta := VUndefined; success := VBool false;
                       status := VNum 403 |}
                    (Some "home page")
                    ltac:(discriminate) (or_introl eq_refl))).
  - apply Hok; [ discriminate | reflexivity | reflexivity ].
  - apply Hl. discriminate.
Defined.

(** C9 as the specification words it fails.  A successful envelope whose
    [data] is there but falsy (the count 0) does not return: an [Error] is
    raised.  And an error message that is there but empty is not used: the
    [Error] says "Failed to load <label>". *)
Lemma handleApiError_states_counterexample :
  (success {| data := VNum 0; error := VUndefined; meta := VUndefined;
              success := VBool true; status := VNum 200 |} = VBool true
   /\ data {| data := VNum 0; error := VUndefined; meta := VUndefined;
              success := VBool true; status := VNum 200 |} <> VUndefined
   /\ handleApiError
        (IsEnvelope {| data := VNum 0; error := VUndefined;
                       meta := VUndefined; success := VBool true;
                       status := VNum 200 |})
        (Some "article count")
      = ([], Throws (new_Error (VStr "Failed to load article count")))
   /\ snd (handleApiError
             (IsEnvelope {| data := VNum 0; error := VUndefined;
                            meta := VUndefined; success := VBool true;
                            status := VNum 200 |})
             (Some "article count"))
      <> Returns tt)
  /\ (opt_field (VObj [("status", VNum 400); ("name", VStr "Error");
                       ("message", VStr "")]) "message" = VStr ""
      /\ handleApiError
           (IsEnvelope
              {| data := VUndefined;
                 error := VObj [("status", VNum 400); ("name", VStr "Error");
                                ("message", VStr "")];
                 meta := VUndefined; success := VBool false;
                 status := VNum 400 |})
           (Some "article")
         = ([], Throws (new_Error (VStr "Failed to load article")))
      /\ new_Error (VStr "Failed to load article") <> new_Error (VStr "")).
Proof.
  split.
  - repeat split; discriminate.
  - repeat split. discriminate.
Qed.

(** C10.  For every envelope with [success === true] whose [data] is
    present but falsy, [handleApiError], and with it
    [validateApiResponse], does not return: it raises an [Error] (with no
    error on the envelope, "Failed to load <label>"), unless the error
    status is 404, where it calls [notFound()].  Whenever [handleApiError]
    returns, the envelope's [data] is truthy. *)
Theorem falsy_data_fails_validation :
  forall (e : TStrapiResponse) (label : option string),
    success e = VBool true ->
    data e <> VUndefined ->
    truthy (data e) = false ->
    snd (handleApiError (IsEnvelope e) label) <> Returns tt
    /\ (forall v, snd (validateApiResponse (IsEnvelope e) label)
                  <> Returns v)
    /\ (is_404 e = false ->
        exists message,
          handleApiError (IsEnvelope e) label
          = ([], Throws (new_Error message))
          /\ validateApiResponse (IsEnvelope e) label
             = ([], Throws (new_Error message)))
    /\ (error e = VUndefined ->
        handleApiError (IsEnvelope e) label
        = ([], Throws (new_Error (VStr (failed_to_load label))))
        /\ validateApiResponse (IsEnvelope e) label
           = ([], Throws (new_Error (VStr (failed_to_load label)))))
    /\ (forall (response : MaybeEnvelope) (label' : option string),
           snd (handleApiError response label') = Returns tt ->
           exists e', response = IsEnvelope e'
                      /\ truthy (data e') = true).
Proof.
  intros e label Hs Hpresent Hd.
  rewrite handleApiError_envelope, validateApiResponse_envelope.
  rewrite Hs, Hd. cbn [truthy andb].
  split; [ | split; [ | split; [ | split ] ] ].
  - destruct (is_404 e); cbn; discriminate.
  - intros v. destruct (is_404 e); cbn; discriminate.
  - intros ->. eexists; split; reflexivity.
  - intros He. unfold is_404, error_message. rewrite He. cbn.
    split; reflexivity.
  - intros [ | | e'] label'; try (cbn; discriminate).
    rewrite handleApiError_envelope.
    destruct (is_404 e'); [ cbn; discriminate | ].
    destruct (truthy (success e')); [ | cbn; discriminate ].
    destruct (truthy (data e')) eqn:Hd'; [ | cbn; discriminate ].
    intros _. now exists e'.
Qed.

Lemma falsy_data_fails_validation_witness :
  handleApiError
    (IsEnvelope {| data := VStr ""; error := VUndefined;
                   meta := VUndefined; success := VBool true;
                   status := VNum 200 |})
    (Some "summary")
  = ([], Throws (new_Error (VStr "Failed to load summary")))
  /\ validateApiResponse
       (IsEnvelope {| data := VBool false; error := VUndefined;
                      meta := VUndefined; success := VBool true;
                      status := VNum 200 |})
       None
     = ([], Throws (new_Error (VStr "Failed to load resource"))).
Proof.
  split.
  - apply (falsy_data_fails_validation
             {| data := VStr ""; error := VUndefined; meta := VUndefined;
                success := VBool true; status := VNum 200 |}
             (Some "summary"));
      first [ reflexivity | discriminate ].
  - apply (falsy_data_fails_validation
             {| data := VBool false; error := VUndefined;
                meta := VUndefined; success := VBool true;
                status := VNum 200 |}
             None);
      first [ reflexivity | discriminate ].
Defined.

(* ===================================================================== *)
(** ** The shape of every run of [apiRequest] *)
(* ===================================================================== *)

Lemma calls_app (kind : Event -> bool) (l1 l2 : list Event) :
  calls kind (l1 ++ l2)%list = (calls kind l1 + calls kind l2)%nat.
Proof. unfold calls. rewrite filter_app. apply length_app. Qed.

Lemma request_body_run (P : Type) (JSON_stringify : P -> Completion (option string))
    (m : HTTPMethod) (payload : option P) :
  request_body JSON_stringify m payload
  = ([], if bodyless m then Normal None
         else match stringify_payload JSON_stringify payload with
              | Normal s => Normal s
              | Abrupt t => Abrupt t
              end).
Proof.
  unfold request_body. destruct (bodyless m); [ reflexivity | ].
  destruct (stringify_payload JSON_stringify payload); reflexivity.
Qed.

(** Every run of [apiRequest], by what the serialiser and the network do. *)
Lemma apiRequest_run (P : Type) (JSON_stringify : P -> Completion (option string))
    (net : Network) (url : string) (options : ApiOptions P) :
  apiRequest JSON_stringify net url options
  = match snd (request_body JSON_stringify (method options)
                 (payload options)) with
    | Abrupt t => on_caught (method options) url t
    | Normal b =>
        match net with
        | Settles (Normal r) =>
            match normalise (method options) url (authToken options) r with
            | (tr, Normal e) =>
                ((settled_prefix url options b ++ tr)%list, Normal e)
            | (tr, Abrupt t) =>
                ((settled_prefix url options b ++ tr
                  ++ fst (on_caught (method options) url t))%list,
                 snd (on_caught (method options) url t))
            end
        | Settles (Abrupt t) =>
            ((settled_prefix url options b
              ++ fst (on_caught (method options) url t))%list,
             snd (on_caught (method options) url t))
        | TimerFires =>
            ((aborted_prefix url options b
              ++ [EvConsoleError LogTimedOut])%list,
             Normal timeout_envelope)
        end
    end.
Proof.
  unfold apiRequest. rewrite request_body_run. cbn [snd].
  destruct (bodyless (method options)).
  - destruct net as [[r | t] | ]; cbn -[on_caught normalise].
    + destruct (normalise (method options) url (authToken options) r)
        as [tr [e | t]]; cbn -[on_caught]; [ reflexivity | ].
      destruct (on_caught (method options) url t). reflexivity.
    + destruct (on_caught (method options) url t). reflexivity.
    + reflexivity.
  - destruct (stringify_payload JSON_stringify (payload options))
      as [s | t0].
    + destruct net as [[r | t] | ]; cbn -[on_caught normalise].
      * destruct (normalise (method options) url (authToken options) r)
          as [tr [e | t]]; cbn -[on_caught]; [ reflexivity | ].
        destruct (on_caught (method options) url t). reflexivity.
      * destruct (on_caught (method options) url t). reflexivity.
      * reflexivity.
    + cbn -[on_caught]. destruct (on_caught (method options) url t0).
      reflexivity.
Qed.

(** The [catch] clause makes one [console.error] call, or none when it
    raises. *)
Lemma on_caught_trace (m : HTTPMethod) (url : string) (t : Thrown) :
  (exists entry, fst (on_caught m url t) = [EvConsoleError entry]
                 /\ exists e, snd (on_caught m url t) = Normal e)
  \/ (fst (on_caught m url t) = []
      /\ exists t', snd (on_caught m url t) = Abrupt t').
Proof.
  unfold on_caught.
  destruct (thrown_get t "name") as [name | t'] eqn:Hname; cbn.
  - left. destruct (strict_eq_str name "AbortError"); cbn.
    + eexists; split; [ reflexivity | eexists; reflexivity ].
    + destruct t as [n msg | v]; cbn;
        (eexists; split; [ reflexivity | eexists; reflexivity ]).
  - right. split; [ reflexivity | eexists; reflexivity ].
Qed.

(** What [normalise] calls: [response.json()] at most once, then
    [console.error] at most once; nothing for a DELETE. *)
Lemma normalise_trace (m : HTTPMethod) (url : string)
    (tok : option string) (r : Response) :
  match normalise m url tok r with
  | (tr, c) =>
      if is_DELETE m then tr = []
      else tr = [EvJson]
           \/ (exists entry, tr = [EvJson; EvConsoleError entry]
                             /\ ok r = false)
  end.
Proof.
  unfold normalise, response_json.
  destruct (is_DELETE m); [ reflexivity | ].
  destruct (r_json r) as [body | t]; [ | left; reflexivity ].
  destruct (ok r); cbn; unfold get; destruct (nullish body); cbn.
  - left; reflexivity.
  - left; reflexivity.
  - right. eexists; split; reflexivity.
  - destruct (truthy (field body "error")); cbn;
      right; eexists; split; reflexivity.
Qed.

Lemma parse_or_log_calls (rest : list Event) :
  forallb parse_or_log rest = true ->
  calls is_fetch rest = 0%nat
  /\ calls is_set_timeout rest = 0%nat
  /\ calls is_clear_timeout rest = 0%nat
  /\ (forall input init, ~ In (EvFetch input init) rest).
Proof.
  induction rest as [ | e rest IH]; cbn.
  - intros _. repeat split. intros input init [].
  - intros H. apply andb_true_iff in H as [He Hrest].
    destruct (IH Hrest) as [Hf [Hs [Hc Hin]]].
    unfold calls in *. destruct e; cbn in He; try discriminate He; cbn;
      repeat split; try assumption;
      intros input init [H | H]; try discriminate H; now apply (Hin input init).
Qed.

Lemma apiRequest_trace (P : Type) (JSON_stringify : P -> Completion (option string))
    (net : Network) (url : string) (options : ApiOptions P) :
  exists rest,
    forallb parse_or_log rest = true
    /\ (calls is_json rest <= 1)%nat
    /\ match snd (request_body JSON_stringify (method options)
                    (payload options)) with
       | Abrupt _ =>
           trace (apiRequest JSON_stringify net url options) = rest
           /\ calls is_json rest = 0%nat
       | Normal b =>
           trace (apiRequest JSON_stringify net url options)
           = match net with
             | TimerFires => (aborted_prefix url options b ++ rest)%list
             | Settles _ => (settled_prefix url options b ++ rest)%list
             end
       end.
Proof.
  rewrite apiRequest_run.
  destruct (snd (request_body JSON_stringify (method options)
                   (payload options))) as [b | t0].
  - destruct net as [[r | t1] | ].
    + pose proof (normalise_trace (method options) url
                    (authToken options) r) as Hnt.
      destruct (normalise (method options) url (authToken options) r)
        as [tr [e | t2]].
      * exists tr. cbn [trace fst].
        destruct (is_DELETE (method options));
          [ subst tr | destruct Hnt as [-> | [entry [-> _]]] ];
          cbn; repeat split; lia.
      * destruct (on_caught_trace (method options) url t2)
          as [[entry [Ho _]] | [Ho _]]; rewrite Ho;
          (exists (tr ++ fst (on_caught (method options) url t2))%list);
          rewrite Ho; cbn [trace fst];
          (destruct (is_DELETE (method options));
           [ subst tr | destruct Hnt as [-> | [entry' [-> _]]] ]);
          cbn; repeat split; lia.
    + exists (fst (on_caught (method options) url t1)).
      destruct (on_caught_trace (method options) url t1)
        as [[entry [Ho _]] | [Ho _]]; rewrite Ho;
        cbn; repeat split; lia.
    + exists [EvConsoleError LogTimedOut]. cbn. repeat split. lia.
  - exists (fst (on_caught (method options) url t0)).
    destruct (on_caught_trace (method options) url t0)
      as [[entry [Ho _]] | [Ho _]];
      unfold trace; rewrite Ho; cbn; repeat split; lia.
Qed.

(* ===================================================================== *)
(** ** Further properties of the request layer *)
(* ===================================================================== *)

(** X1.  [apiWithTimeout] arms its timer first and clears it last, once
    each, however the race ends, and calls [fetch] once in between.  It
    completes as [fetch] did, or with the [AbortError] when the timer's
    callback ran first. *)
Theorem apiWithTimeout_timer_discipline :
  forall (net : Network) (input : string) (init : RequestInit) (ms : Z),
    exists mid,
      trace (apiWithTimeout net input init ms)
      = (EvSetTimeout ms :: mid ++ [EvClearTimeout])%list
      /\ calls is_set_timeout mid = 0%nat
      /\ calls is_clear_timeout mid = 0%nat
      /\ calls is_fetch mid = 1%nat
      /\ outcome (apiWithTimeout net input init ms)
         = match net with
           | Settles c => c
           | TimerFires => Abrupt AbortError
           end.
Proof.
  intros net input init ms. rewrite apiWithTimeout_run.
  destruct net as [c | ].
  - exists [EvFetch input (with_signal init ControllerSignal)].
    repeat split.
  - exists [EvFetch input (with_signal init ControllerSignal); EvAbort].
    repeat split.
Qed.

(** X2.  In every run, [apiRequest] calls [fetch] at most once, arms and
    clears a timer exactly as often as it calls [fetch], and parses at most
    one body and only after a [fetch]: it never retries and never leaves a
    timer armed. *)
Theorem apiRequest_calls_balanced :
  forall (P : Type) (JSON_stringify : P -> Completion (option string))
         (net : Network) (url : string) (options : ApiOptions P),
    let tr := trace (apiRequest JSON_stringify net url options) in
    (calls is_fetch tr <= 1)%nat
    /\ calls is_set_timeout tr = calls is_fetch tr
    /\ calls is_clear_timeout tr = calls is_fetch tr
    /\ (calls is_json tr <= calls is_fetch tr)%nat.
Proof.
  intros P JSON_stringify net url options tr. subst tr.
  destruct (apiRequest_trace P JSON_stringify net url options)
    as [rest [Hrest [Hjson Htr]]].
  destruct (parse_or_log_calls rest Hrest) as [Hf [Hs [Hc _]]].
  destruct (snd (request_body JSON_stringify (method options)
                   (payload options))) as [b | t0].
  - rewrite Htr. destruct net as [c | ]; rewrite !calls_app, Hf, Hs, Hc;
      cbn; repeat split; lia.
  - destruct Htr as [-> Hj]. rewrite Hf, Hs, Hc, Hj. repeat split; lia.
Qed.

(** X3.  When the verb takes a body and [JSON.stringify] of the payload
    throws an [Error] (not named "AbortError"), no timer is armed and no
    request is made, whatever the network would have done: [apiRequest]
    logs once and returns status 500, name "NetworkError" and the
    exception's message. *)
Theorem serialisation_failure_makes_no_request :
  forall (P : Type) (JSON_stringify : P -> Completion (option string))
         (net : Network) (url : string) (options : ApiOptions P)
         (name : string) (message : JsVal),
    bodyless (method options) = false ->
    stringify_payload JSON_stringify (payload options)
    = Abrupt (ErrorObject name message) ->
    name <> "AbortError" ->
    apiRequest JSON_stringify net url options
    = ([EvConsoleError
          (LogUnexpected (method options) url (ErrorObject name message))],
       Normal {| data := VUndefined;
                 error := VObj [("status", VNum 500);
                                ("name", VStr "NetworkError");
                                ("message", message)];
                 meta := VUndefined;
                 success := VBool false;
                 status := VNum 500 |}).
Proof.
  intros P JSON_stringify net url options name message Hb Hs Hname.
  rewrite apiRequest_run, request_body_run, Hb, Hs. cbn [snd].
  unfold on_caught. cbn. apply String.eqb_neq in Hname. rewrite Hname.
  reflexivity.
Qed.

Lemma serialisation_failure_makes_no_request_witness :
  apiRequest stringify_cycle (responds 200 "OK" (VObj []))
    "/api/articles" (mkApiOptions POST (Some tt) None None)
  = ([EvConsoleError
        (LogUnexpected POST "/api/articles"
           (ErrorObject "TypeError"
              (VStr "Converting circular structure to JSON")))],
     Normal {| data := VUndefined;
               error := VObj [("status", VNum 500);
                              ("name", VStr "NetworkError");
                              ("message",
                               VStr "Converting circular structure to JSON")];
               meta := VUndefined;
               success := VBool false;
               status := VNum 500 |}).
Proof.
  apply (serialisation_failure_makes_no_request unit stringify_cycle
           (responds 200 "OK" (VObj [])) "/api/articles"
           (mkApiOptions POST (Some tt) None None)
           "TypeError" (VStr "Converting circular structure to JSON")).
  - reflexivity.
  - reflexivity.
  - discriminate.
Defined.

(** X4.  A GET or a DELETE never serialises: its whole run is the same
    whatever the payload and whatever [JSON.stringify] would do with it. *)
Theorem bodyless_ignores_payload :
  forall (P P' : Type) (JSON_stringify : P -> Completion (option string))
         (JSON_stringify' : P' -> Completion (option string))
         (net : Network) (url : string) (m : HTTPMethod)
         (payload : option P) (payload' : option P')
         (ms : option Z) (tok : option string),
    bodyless m = true ->
    apiRequest JSON_stringify net url (mkApiOptions m payload ms tok)
    = apiRequest JSON_stringify' net url (mkApiOptions m payload' ms tok).
Proof.
  intros P P' js js' net url m p p' ms tok Hb.
  unfold apiRequest. rewrite !request_body_run.
  cbn [method payload timeoutMs authToken]. rewrite Hb. reflexivity.
Qed.

Lemma bodyless_ignores_payload_witness :
  apiRequest stringify_unit TimerFires "/api/global"
    (mkApiOptions GET None None None)
  = apiRequest stringify_cycle TimerFires "/api/global"
      (mkApiOptions GET (Some tt) None None).
Proof.
  apply (bodyless_ignores_payload unit unit stringify_unit stringify_cycle
           TimerFires "/api/global" GET None (Some tt) None None).
  reflexivity.
Defined.

Lemma fetch_event_sent (P : Type) (JSON_stringify : P -> Completion (option string))
    (net : Network) (url : string) (options : ApiOptions P)
    (input : string) (init : RequestInit) :
  In (EvFetch input init)
     (trace (apiRequest JSON_stringify net url options)) ->
  exists b,
    snd (request_body JSON_stringify (method options) (payload options))
    = Normal b
    /\ input = url /\ init = init_sent options b.
Proof.
  destruct (apiRequest_trace P JSON_stringify net url options)
    as [rest [Hrest [_ Htr]]].
  destruct (parse_or_log_calls rest Hrest) as [_ [_ [_ Hnot]]].
  destruct (snd (request_body JSON_stringify (method options)
                   (payload options))) as [b | t0].
  - rewrite Htr. intros Hin. exists b. split; [ reflexivity | ].
    destruct net as [c | ]; apply in_app_or in Hin as [Hin | Hin];
      try (now elim (Hnot input init));
      cbn in Hin; repeat destruct Hin as [Hin | Hin];
      try discriminate Hin; try contradiction;
      injection Hin as <- <-; split; reflexivity.
  - destruct Htr as [-> _]. intros Hin. now elim (Hnot input init).
Qed.

(** X5.  Whatever request [apiRequest] hands to [fetch] goes to the given
    URL with the given verb and the function's own abort signal; it says
    [Content-Type: application/json]; it carries [Authorization: Bearer
    <token>] exactly when a non-empty token was given; and its body is
    absent for GET and DELETE and is otherwise what
    [JSON.stringify(payload ?? {})] returned: the JSON text, "{}" when
    there is no payload, and no body when it returned [undefined]. *)
Theorem request_sent_shape :
  forall (P : Type) (JSON_stringify : P -> Completion (option string))
         (net : Network) (url : string) (options : ApiOptions P)
         (input : string) (init : RequestInit),
    In (EvFetch input init)
       (trace (apiRequest JSON_stringify net url options)) ->
    input = url
    /\ ri_method init = Some (method options)
    /\ ri_signal init = Some ControllerSignal
    /\ header "Content-Type" (ri_headers init) = Some "application/json"
    /\ header "Authorization" (ri_headers init)
       = match authToken options with
         | Some t => if String.eqb t "" then None else Some ("Bearer " ++ t)
         | None => None
         end
    /\ (bodyless (method options) = true -> ri_body init = None)
    /\ (bodyless (method options) = false ->
        stringify_payload JSON_stringify (payload options)
        = Normal (ri_body init))
    /\ (bodyless (method options) = false -> payload options = None ->
        ri_body init = Some "{}")
    /\ (bodyless (method options) = false ->
        forall p, payload options = Some p ->
                  JSON_stringify p = Normal (ri_body init)).
Proof.
  intros P JSON_stringify net url options input init Hin.
  destruct (fetch_event_sent P JSON_stringify net url options input init Hin)
    as [b [Hb [-> ->]]].
  rewrite request_body_run in Hb. cbn [snd] in Hb.
  split; [ reflexivity | ]. split; [ reflexivity | ].
  split; [ reflexivity | ]. split; [ reflexivity | ].
  split; [ | split; [ | split; [ | split ] ] ].
  - cbn. destruct (authToken options) as [t | ]; [ | reflexivity ].
    destruct (String.eqb t ""); reflexivity.
  - intros Hbl. rewrite Hbl in Hb. injection Hb as <-. reflexivity.
  - intros Hbl. rewrite Hbl in Hb.
    destruct (stringify_payload JSON_stringify (payload options))
      as [s | t]; [ | discriminate Hb ].
    injection Hb as <-. reflexivity.
  - intros Hbl Hp. rewrite Hbl, Hp in Hb. cbn in Hb.
    injection Hb as <-. reflexivity.
  - intros Hbl p Hp. rewrite Hbl, Hp in Hb. cbn in Hb.
    destruct (JSON_stringify p) as [s | t]; [ | discriminate Hb ].
    injection Hb as <-. reflexivity.
Qed.

Lemma request_sent_shape_witness :
  "/api/articles" = "/api/articles"
  /\ ri_method
       (init_sent (mkApiOptions (P:=unit) POST None None (Some "s3cret"))
          (Some "{}"))
     = Some POST
  /\ ri_signal
       (init_sent (mkApiOptions (P:=unit) POST None None (Some "s3cret"))
          (Some "{}"))
     = Some ControllerSignal
  /\ header "Content-Type"
       (ri_headers
          (init_sent (mkApiOptions (P:=unit) POST None None (Some "s3cret"))
             (Some "{}")))
     = Some "application/json"
  /\ header "Authorization"
       (ri_headers
          (init_sent (mkApiOptions (P:=unit) POST None None (Some "s3cret"))
             (Some "{}")))
     = Some "Bearer s3cret".
Proof.
  pose proof (request_sent_shape unit stringify_unit
                (responds 200 "OK" (VObj []))
                "/api/articles"
                (mkApiOptions POST None None (Some "s3cret"))
                "/api/articles"
                (init_sent (mkApiOptions (P:=unit) POST None None
                              (Some "s3cret")) (Some "{}"))
                (or_intror (or_introl eq_refl)))
    as [H1 [H2 [H3 [H4 [H5 _]]]]].
  repeat split; assumption.
Defined.

(** X6.  What a caller leaves out has a fixed meaning: a call without
    [timeoutMs] runs exactly as one with 8000, and a call with the empty
    string as token runs exactly as one without a token. *)
Theorem option_defaults :
  forall (P : Type) (JSON_stringify : P -> Completion (option string))
         (net : Network) (url : string) (m : HTTPMethod)
         (p : option P) (ms : option Z) (tok : option string),
    apiRequest JSON_stringify net url (mkApiOptions m p None tok)
    = apiRequest JSON_stringify net url (mkApiOptions m p (Some 8000) tok)
    /\ apiRequest JSON_stringify net url (mkApiOptions m p ms (Some ""))
       = apiRequest JSON_stringify net url (mkApiOptions m p ms None).
Proof. intros. split; reflexivity. Qed.

(** X7.  When the body of a response to a non-DELETE request does not
    parse ([response.json()] rejects with an [Error] not named
    "AbortError"), [apiRequest] returns status 500 and name "NetworkError"
    with the parser's message, whatever the HTTP status was, 2xx
    included. *)
Theorem unparsable_body_is_network_error :
  forall (P : Type) (JSON_stringify : P -> Completion (option string))
         (url : string) (options : ApiOptions P) (r : Response)
         (name : string) (message : JsVal),
    method options <> DELETE ->
    serialises JSON_stringify options ->
    r_json r = Abrupt (ErrorObject name message) ->
    name <> "AbortError" ->
    outcome (apiRequest JSON_stringify (Settles (Normal r)) url options)
    = Normal {| data := VUndefined;
                error := VObj [("status", VNum 500);
                               ("name", VStr "NetworkError");
                               ("message", message)];
                meta := VUndefined;
                success := VBool false;
                status := VNum 500 |}.
Proof.
  intros P JSON_stringify url options r name message Hm Hser Hjson Hname.
  on_response Hser.
  unfold normalise, response_json. rewrite (not_DELETE _ Hm), Hjson. cbn.
  apply String.eqb_neq in Hname. rewrite Hname. reflexivity.
Qed.

Lemma unparsable_body_is_network_error_witness :
  outcome (apiRequest stringify_unit
             (Settles (Normal (mkResponse 204 "No Content"
                                 (Abrupt (ErrorObject "SyntaxError"
                                            (VStr "Unexpected end of JSON input"))))))
             "/api/articles/1" (plain PUT))
  = Normal {| data := VUndefined;
              error := VObj [("status", VNum 500);
                             ("name", VStr "NetworkError");
                             ("message",
                              VStr "Unexpected end of JSON input")];
              meta := VUndefined;
              success := VBool false;
              status := VNum 500 |}.
Proof.
  apply (unparsable_body_is_network_error unit stringify_unit
           "/api/articles/1" (plain PUT)
           (mkResponse 204 "No Content"
              (Abrupt (ErrorObject "SyntaxError"
                         (VStr "Unexpected end of JSON input"))))
           "SyntaxError" (VStr "Unexpected end of JSON input")).
  - discriminate.
  - right. exists (Some "{}"). reflexivity.
  - reflexivity.
  - discriminate.
Defined.

(** What [normalise] returns against what it logged. *)
Lemma normalise_logs (m : HTTPMethod) (url : string)
    (tok : option string) (r : Response) :
  match normalise m url tok r with
  | (tr, Normal e) =>
      success e = VBool (ok r)
      /\ status e = VNum (r_status r)
      /\ calls is_console_error tr
         = (if is_DELETE m || ok r then 0 else 1)%nat
  | (tr, Abrupt _) => (calls is_console_error tr <= 1)%nat
  end.
Proof.
  unfold normalise, response_json.
  destruct (is_DELETE m).
  - destruct (ok r); cbn; repeat split.
  - destruct (r_json r) as [body | t]; [ | cbn; lia ].
    destruct (ok r); cbn; unfold get; destruct (nullish body); cbn;
      try lia; try (repeat split; fail).
    destruct (truthy (field body "error")); cbn; repeat split.
Qed.

Lemma on_caught_fails (m : HTTPMethod) (url : string) (t : Thrown)
    (e : TStrapiResponse) :
  snd (on_caught m url t) = Normal e ->
  success e = VBool false
  /\ calls is_console_error (fst (on_caught m url t)) = 1%nat.
Proof.
  intros H.
  destruct (on_caught_trace m url t) as [[entry [Ho _]] | [_ [t' Ho]]].
  - rewrite Ho. split; [ | reflexivity ].
    destruct (thrown_get t "name") as [name | t'] eqn:Hname.
    + pose proof (on_caught_by_name m url t name Hname) as Hn.
      unfold outcome in Hn. rewrite H in Hn.
      destruct (strict_eq_str name "AbortError");
        injection Hn as ->; reflexivity.
    + unfold on_caught in H. rewrite Hname in H. discriminate H.
  - rewrite Ho in H. discriminate H.
Qed.

(** X8.  What [apiRequest] logs, whenever it returns an envelope: at most
    two [console.error] calls, and none at all in exactly two cases: with a
    success envelope, and for a DELETE that got a response (so the failure
    of a DELETE answered outside 2xx is not logged).  Every other failure
    envelope is logged. *)
Theorem failure_logging :
  forall (P : Type) (JSON_stringify : P -> Completion (option string))
         (net : Network) (url : string) (options : ApiOptions P)
         (e : TStrapiResponse),
    outcome (apiRequest JSON_stringify net url options) = Normal e ->
    let logged :=
      calls is_console_error
        (trace (apiRequest JSON_stringify net url options)) in
    (logged <= 2)%nat
    /\ (logged = 0%nat
        <-> success e = VBool true
            \/ (method options = DELETE
                /\ exists r, net = Settles (Normal r))).
Proof.
  intros P JSON_stringify net url options e.
  rewrite apiRequest_run.
  destruct (snd (request_body JSON_stringify (method options)
                   (payload options))) as [b | t0] eqn:Hbody.
  - destruct net as [[r | t1] | ].
    + pose proof (normalise_logs (method options) url
                    (authToken options) r) as Hl.
      destruct (normalise (method options) url (authToken options) r)
        as [tr [e' | t2]] eqn:Hn.
      * destruct Hl as [Hs [_ Hc]].
        cbn [outcome trace fst snd]. intros H. injection H as ->.
        rewrite calls_app, Hc. cbn [calls settled_prefix filter
          is_console_error length Nat.add].
        rewrite Hs. destruct (method options) eqn:Hm; cbn [is_DELETE orb];
          destruct (ok r); (split; [ lia | ]); split;
          try (intros _; now left);
          try (intros _; right; split; [ reflexivity | now exists r ]);
          try discriminate;
          try (intros _; reflexivity);
          intros [H | [H _]]; discriminate H.
      * cbn [outcome trace fst snd]. intros H.
        destruct (on_caught_fails _ _ _ _ H) as [Hs Hc].
        rewrite !calls_app, Hc. cbn [calls settled_prefix filter
          is_console_error length Nat.add].
        split; [ lia | ]. split; [ lia | ].
        intros [Ht | [Hm _]]; [ rewrite Hs in Ht; discriminate Ht | ].
        assert (Hr : snd (normalise (method options) url
                            (authToken options) r) = Abrupt t2)
          by (rewrite Hn; reflexivity).
        apply normalise_raises in Hr as [Hd _].
        rewrite Hm in Hd. discriminate Hd.
    + cbn [outcome trace fst snd]. intros H.
      destruct (on_caught_fails _ _ _ _ H) as [Hs Hc].
      rewrite calls_app, Hc. cbn. split; [ lia | ]. split; [ lia | ].
      intros [Ht | [_ [r Hr]]];
        [ rewrite Hs in Ht; discriminate Ht | discriminate Hr ].
    + cbn. intros H. injection H as <-. cbn. split; [ lia | ].
      split; [ lia | ].
      intros [Ht | [_ [r Hr]]]; [ discriminate Ht | discriminate Hr ].
  - intros H. unfold outcome in H.
    destruct (on_caught_fails _ _ _ _ H) as [Hs Hc]. unfold trace.
    rewrite Hc. split; [ lia | ]. split; [ lia | ].
    intros [Ht | [Hm _]]; [ rewrite Hs in Ht; discriminate Ht | ].
    rewrite request_body_run, Hm in Hbody. discriminate Hbody.
Qed.

Lemma failure_logging_witness :
  (0 <= 2)%nat
  /\ (0%nat = 0%nat
      <-> VBool false = VBool true
          \/ (DELETE = DELETE
              /\ exists r,
                   Settles (Normal (mkResponse 500 "Internal Server Error"
                                      (Normal VNull)))
                   = Settles (Normal r))).
Proof.
  apply (failure_logging unit stringify_unit
           (Settles (Normal (mkResponse 500 "Internal Server Error"
                               (Normal VNull))))
           "/api/articles/1" (plain DELETE)
           (failure (error_object 500 (VStr "Error")
                       (VStr "Failed to delete resource")) 500)).
  reflexivity.
Defined.

Lemma on_caught_returns (m : HTTPMethod) (url : string) (t : Thrown) :
  not_nullish_throw t -> exists e, snd (on_caught m url t) = Normal e.
Proof.
  intros Ht.
  destruct (on_caught_converts m url t) as [name [_ E]].
  { intros v ->. exact Ht. }
  rewrite E. destruct (strict_eq_str name "AbortError");
    eexists; reflexivity.
Qed.

(** X9.  [apiRequest] always returns an envelope, provided that nothing
    thrown by the serialiser, by [fetch] or by [response.json()] is [null]
    or [undefined]. *)
Theorem apiRequest_returns_unless_nullish_thrown :
  forall (P : Type) (JSON_stringify : P -> Completion (option string))
         (net : Network) (url : string) (options : ApiOptions P),
    (forall p t, JSON_stringify p = Abrupt t -> not_nullish_throw t) ->
    network_throws_no_nullish net ->
    exists e,
      outcome (apiRequest JSON_stringify net url options) = Normal e.
Proof.
  intros P JSON_stringify net url options Hjs Hnet.
  rewrite apiRequest_run.
  destruct (snd (request_body JSON_stringify (method options)
                   (payload options))) as [b | t0] eqn:Hb.
  - destruct net as [[r | t1] | ]; cbn in Hnet.
    + destruct (normalise (method options) url (authToken options) r)
        as [tr [e | t2]] eqn:Hn; [ now exists e | ].
      cbn [outcome snd]. apply on_caught_returns.
      assert (Hr : snd (normalise (method options) url
                          (authToken options) r) = Abrupt t2)
        by (rewrite Hn; reflexivity).
      apply normalise_raises in Hr as [_ [Hj | [body [k [_ [_ ->]]]]]].
      * rewrite Hj in Hnet. exact Hnet.
      * exact I.
    + cbn [outcome snd]. now apply on_caught_returns.
    + now exists timeout_envelope.
  - unfold outcome. apply on_caught_returns.
    rewrite request_body_run in Hb. cbn [snd] in Hb.
    destruct (bodyless (method options)); [ discriminate Hb | ].
    unfold stringify_payload in Hb.
    destruct (payload options) as [p | ]; [ | discriminate Hb ].
    apply (Hjs p).
    destruct (JSON_stringify p); [ discriminate Hb | ].
    now injection Hb as ->.
Qed.

Lemma apiRequest_returns_unless_nullish_thrown_witness :
  exists e,
    outcome (apiRequest stringify_cycle
               (Settles (Abrupt (ThrownValue (VStr "offline"))))
               "/api/articles" (mkApiOptions PATCH (Some tt) None None))
    = Normal e.
Proof.
  apply (apiRequest_returns_unless_nullish_thrown unit stringify_cycle
           (Settles (Abrupt (ThrownValue (VStr "offline"))))
           "/api/articles" (mkApiOptions PATCH (Some tt) None None)).
  - intros p t H. injection H as <-. exact I.
  - reflexivity.
Defined.

(** X10.  A success envelope comes from a 2xx response and from nothing
    else, and carries that response's status; a response outside 2xx never
    gives a success envelope. *)
Theorem success_only_from_2xx :
  forall (P : Type) (JSON_stringify : P -> Completion (option string))
         (net : Network) (url : string) (options : ApiOptions P)
         (e : TStrapiResponse),
    outcome (apiRequest JSON_stringify net url options) = Normal e ->
    (success e = VBool true ->
     exists r, net = Settles (Normal r) /\ ok r = true
               /\ status e = VNum (r_status r))
    /\ (forall r, net = Settles (Normal r) -> ok r = false ->
                  success e = VBool false).
Proof.
  intros P JSON_stringify net url options e.
  rewrite apiRequest_run.
  destruct (snd (request_body JSON_stringify (method options)
                   (payload options))) as [b | t0].
  - destruct net as [[r | t1] | ].
    + pose proof (normalise_logs (method options) url
                    (authToken options) r) as Hl.
      destruct (normalise (method options) url (authToken options) r)
        as [tr [e' | t2]].
      * destruct Hl as [Hs [Hst _]]. cbn [outcome snd].
        intros H. injection H as ->. split.
        -- intros H. rewrite Hs in H. injection H as Hok. now exists r.
        -- intros r' Hr Hok. injection Hr as <-. rewrite Hs, Hok.
           reflexivity.
      * cbn [outcome snd]. intros H.
        destruct (on_caught_fails _ _ _ _ H) as [Hs _]. split.
        -- rewrite Hs. discriminate.
        -- intros; exact Hs.
    + cbn [outcome snd]. intros H.
      destruct (on_caught_fails _ _ _ _ H) as [Hs _]. split.
      * rewrite Hs. discriminate.
      * intros r Hr. discriminate Hr.
    + cbn. intros H. injection H as <-. split.
      * discriminate.
      * intros r Hr. discriminate Hr.
  - unfold outcome. intros H.
    destruct (on_caught_fails _ _ _ _ H) as [Hs _]. split.
    + rewrite Hs. discriminate.
    + intros; exact Hs.
Qed.

Lemma success_only_from_2xx_witness :
  exists r,
    responds 201 "Created" (VObj [("data", VObj [("id", VNum 7)])])
    = Settles (Normal r)
    /\ ok r = true
    /\ VNum 201 = VNum (r_status r).
Proof.
  apply (proj1 (success_only_from_2xx unit stringify_unit
                  (responds 201 "Created"
                     (VObj [("data", VObj [("id", VNum 7)])]))
                  "/api/articles" (plain POST)
                  {| data := VObj [("id", VNum 7)]; error := VUndefined;
                     meta := VUndefined; success := VBool true;
                     status := VNum 201 |}
                  eq_refl)).
  reflexivity.
Defined.



(* ===================================================================== *)
(** ** Further properties of the error handler *)
(* ===================================================================== *)

(** X12.  [validateApiResponse] adds nothing to [handleApiError] but the
    extraction: it makes the same host calls, ends in the same exception or
    redirect, and when [handleApiError] returns, the envelope is present
    and its [data] is returned.  The read [data!.data] never meets [null]
    or [undefined]. *)
Theorem validate_agrees_with_handleApiError :
  forall (response : MaybeEnvelope) (label : option string),
    fst (validateApiResponse response label)
    = fst (handleApiError response label)
    /\ match snd (handleApiError response label) with
       | Returns _ =>
           exists e, response = IsEnvelope e
                     /\ snd (validateApiResponse response label)
                        = Returns (data e)
       | Throws t => snd (validateApiResponse response label) = Throws t
       | NotFound => snd (validateApiResponse response label) = NotFound
       end.
Proof.
  intros [ | | e] label; try (split; reflexivity).
  rewrite validateApiResponse_envelope, handleApiError_envelope.
  destruct (is_404 e); [ split; reflexivity | ].
  destruct (truthy (success e) && truthy (data e)); cbn.
  - split; [ reflexivity | now exists e ].
  - split; reflexivity.
Qed.

(** X13.  An envelope that [apiRequest] returned passes
    [validateApiResponse] only if it is a success envelope of a 2xx
    response; the value obtained is its [data], and it is truthy.  No
    failure envelope of [apiRequest] passes. *)
Theorem validated_envelope_is_success :
  forall (P : Type) (JSON_stringify : P -> Completion (option string))
         (net : Network) (url : string) (options : ApiOptions P)
         (e : TStrapiResponse) (label : option string) (v : JsVal),
    outcome (apiRequest JSON_stringify net url options) = Normal e ->
    snd (validateApiResponse (IsEnvelope e) label) = Returns v ->
    success e = VBool true
    /\ v = data e
    /\ truthy v = true
    /\ exists r, net = Settles (Normal r) /\ ok r = true.
Proof.
  intros P JSON_stringify net url options e label v Hrun Hval.
  rewrite validateApiResponse_envelope in Hval.
  destruct (is_404 e); [ discriminate Hval | ].
  destruct (truthy (success e)) eqn:Hs; [ | discriminate Hval ].
  destruct (truthy (data e)) eqn:Hd; [ | discriminate Hval ].
  cbn in Hval. injection Hval as <-.
  assert (Hsucc : success e = VBool true).
  { rewrite apiRequest_run in Hrun.
    destruct (snd (request_body JSON_stringify (method options)
                     (payload options))) as [b | t0].
    - destruct net as [[r | t1] | ].
      + pose proof (normalise_logs (method options) url
                      (authToken options) r) as Hl.
        destruct (normalise (method options) url (authToken options) r)
          as [tr [e' | t2]]; cbn [outcome snd] in Hrun.
        * injection Hrun as ->. destruct Hl as [Hl _].
          rewrite Hl in Hs |- *. cbn in Hs. now rewrite Hs.
        * apply on_caught_fails in Hrun as [Hf _].
          rewrite Hf in Hs. discriminate Hs.
      + cbn [outcome snd] in Hrun. apply on_caught_fails in Hrun as [Hf _].
        rewrite Hf in Hs. discriminate Hs.
      + cbn in Hrun. injection Hrun as <-. discriminate Hs.
    - unfold outcome in Hrun. apply on_caught_fails in Hrun as [Hf _].
      rewrite Hf in Hs. discriminate Hs. }
  repeat split; try assumption.
  rewrite apiRequest_run in Hrun.
  destruct (snd (request_body JSON_stringify (method options)
                   (payload options))) as [b | t0].
  - destruct net as [[r | t1] | ].
    + pose proof (normalise_logs (method options) url
                    (authToken options) r) as Hl.
      destruct (normalise (method options) url (authToken options) r)
        as [tr [e' | t2]]; cbn [outcome snd] in Hrun.
      * injection Hrun as ->. destruct Hl as [Hl _].
        rewrite Hl in Hsucc. injection Hsucc as Hok. now exists r.
      * apply on_caught_fails in Hrun as [Hf _]. congruence.
    + cbn [outcome snd] in Hrun. apply on_caught_fails in Hrun as [Hf _].
      congruence.
    + cbn in Hrun. injection Hrun as <-. discriminate Hsucc.
  - unfold outcome in Hrun. apply on_caught_fails in Hrun as [Hf _].
    congruence.
Qed.

Lemma validated_envelope_is_success_witness :
  VBool true = VBool true
  /\ home_page = home_page
  /\ truthy home_page = true
  /\ exists r, responds 200 "OK" (VObj [("data", home_page)])
               = Settles (Normal r)
               /\ ok r = true.
Proof.
  apply (validated_envelope_is_success unit stringify_unit
           (responds 200 "OK" (VObj [("data", home_page)]))
           "/api/home-page" (plain GET)
           {| data := home_page; error := VUndefined; meta := VUndefined;
              success := VBool true; status := VNum 200 |}
           (Some "home page") home_page);
    reflexivity.
Defined.

(** X14.  A DELETE that got a response, then validated: a 2xx status
    gives [true]; the status 404 gives the not-found redirect; any other
    status raises "Failed to delete resource", whatever the label. *)
Theorem delete_then_validate :
  forall (P : Type) (JSON_stringify : P -> Completion (option string))
         (url : string) (p : option P) (ms : option Z)
         (tok : option string) (r : Response) (label : option string),
    exists e,
      outcome (apiRequest JSON_stringify (Settles (Normal r)) url
                 (mkApiOptions DELETE p ms tok)) = Normal e
      /\ validateApiResponse (IsEnvelope e) label
         = if ok r then ([], Returns (VBool true))
           else if r_status r =? 404 then ([EvNotFound], NotFound)
           else ([], Throws (new_Error (VStr "Failed to delete resource"))).
Proof.
  intros P JSON_stringify url p ms tok r label.
  exists (delete_envelope r). split; [ reflexivity | ].
  rewrite validateApiResponse_envelope. unfold delete_envelope.
  destruct (ok r); [ reflexivity | ].
  unfold is_404. cbn. destruct (r_status r =? 404); reflexivity.
Qed.

(* ===================================================================== *)
(** ** The loaders and the home page *)
(* ===================================================================== *)

Lemma blockRenderer_run (block : JsVal) (index : nat) :
  blockRenderer block index
  = if nullish block
    then ([], Abrupt (TypeError_read block "__component"))
    else if strict_eq_str (field block "__component") "layout.hero-section"
    then ([], Normal (Some (mkElement HeroSection index block)))
    else if is_features_block block
    then ([EvConsoleLog "Sections data:" block],
          Normal (Some (mkElement FeaturesSection index block)))
    else ([], Normal None).
Proof.
  unfold blockRenderer, get, is_features_block.
  destruct (nullish block); reflexivity.
Qed.

(** The whole of a completed [map_blocks]: one child per block, in order,
    and one [console.log] per features section, in order. *)
Lemma map_blocks_completed (items : list JsVal) :
  forall (index : nat) (tr : list PageEvent) (els : list (option Element)),
    map_blocks items index = (tr, Normal els) ->
    length els = length items
    /\ tr = map (EvConsoleLog "Sections data:")
              (filter is_features_block items)
    /\ (forall k block,
           nth_error items k = Some block ->
           nullish block = false
           /\ nth_error els k
              = Some (if strict_eq_str (field block "__component")
                           "layout.hero-section"
                      then Some (mkElement HeroSection (index + k) block)
                      else if is_features_block block
                      then Some (mkElement FeaturesSection (index + k) block)
                      else None)).
Proof.
  induction items as [ | block rest IH]; intros index tr els H.
  - cbn in H. injection H as <- <-.
    split; [ reflexivity | split; [ reflexivity | ] ].
    intros k block Hk. destruct k; discriminate Hk.
  - cbn [map_blocks] in H. rewrite blockRenderer_run in H.
    destruct (nullish block) eqn:Hnn; [ discriminate H | ].
    destruct (map_blocks rest (S index)) as [tr' [els' | t]] eqn:Hrest.
    + destruct (IH (S index) tr' els' Hrest) as [Hlen [Htr Hnth]].
      assert (Hf : strict_eq_str (field block "__component")
                     "layout.hero-section" = true ->
                   is_features_block block = false).
      { unfold is_features_block.
        destruct (field block "__component"); cbn; try discriminate.
        intros E. apply String.eqb_eq in E. now subst. }
      destruct (strict_eq_str (field block "__component")
                  "layout.hero-section") eqn:Hh;
        [ specialize (Hf eq_refl)
        | clear Hf; destruct (is_features_block block) eqn:Hf ];
        cbn in H; injection H as <- <-;
        (split; [ cbn; now rewrite Hlen | ]);
        (split; [ cbn [filter]; rewrite Hf; cbn; now rewrite Htr | ]);
        intros k b Hk; destruct k as [ | k']; cbn in Hk;
        try (injection Hk as <-; split; [ exact Hnn | ];
             cbn; rewrite Nat.add_0_r, Hh, ?Hf; reflexivity);
        destruct (Hnth k' b Hk) as [Hb Hk']; (split; [ exact Hb | ]);
        cbn; rewrite Hk'; now rewrite Nat.add_succ_r.
    + exfalso.
      destruct (strict_eq_str (field block "__component")
                  "layout.hero-section");
        [ | destruct (is_features_block block) ]; discriminate H.
Qed.

(** A [map_blocks] that does not complete met a block that is [null] or
    [undefined]; one that completes met none. *)
Lemma map_blocks_outcome (items : list JsVal) :
  forall index : nat,
    match snd (map_blocks items index) with
    | Normal _ => forallb (fun b => negb (nullish b)) items = true
    | Abrupt t =>
        exists v, In v items /\ nullish v = true
                  /\ t = TypeError_read v "__component"
    end.
Proof.
  induction items as [ | block rest IH]; intros index; [ reflexivity | ].
  cbn [map_blocks]. rewrite blockRenderer_run.
  destruct (nullish block) eqn:Hnn.
  - cbn. exists block. repeat split; [ now left | exact Hnn ].
  - specialize (IH (S index)).
    assert (Hgo : forall (tr : list PageEvent) (el : option Element),
               match snd (match map_blocks rest (S index) with
                          | (tr', Normal els) =>
                              ((tr ++ tr')%list, Normal (el :: els))
                          | (tr', Abrupt t) => ((tr ++ tr')%list, Abrupt t)
                          end) with
               | Normal _ =>
                   forallb (fun b => negb (nullish b)) (block :: rest)
                   = true
               | Abrupt t =>
                   exists v, In v (block :: rest) /\ nullish v = true
                             /\ t = TypeError_read v "__component"
               end).
    { intros tr el.
      destruct (map_blocks rest (S index)) as [tr' [els | t]]; cbn in IH |- *.
      - rewrite Hnn. exact IH.
      - destruct IH as [v [Hin [Hv Ht]]]. exists v.
        repeat split; [ now right | exact Hv | exact Ht ]. }
    destruct (strict_eq_str (field block "__component")
                "layout.hero-section");
      [ | destruct (is_features_block block) ]; apply Hgo.
Qed.

Lemma Home_outcome (P : Type) (JSON_stringify : P -> Completion (option string))
    (net : Network) (href : string) :
  snd (Home JSON_stringify net href)
  = match outcome (apiRequest JSON_stringify net href
                     (mkApiOptions GET None None None)) with
    | Abrupt t => Throws t
    | Normal e =>
        match snd (validateApiResponse (IsEnvelope e)
                     (Some "home page")) with
        | Throws t => Throws t
        | NotFound => NotFound
        | Returns d =>
            match get d "blocks" with
            | Abrupt t => Throws t
            | Normal blocks =>
                match snd (blocks_map blocks) with
                | Normal children => Returns (Main children)
                | Abrupt t => Throws t
                end
            end
        end
    end.
Proof.
  unfold Home, getHomePageData, api.get, outcome. cbn [api.x_timeoutMs
    api.x_authToken api.no_extra].
  destruct (apiRequest JSON_stringify net href
              (mkApiOptions GET None None None)) as [tr [e | t]];
    [ | reflexivity ].
  cbn [snd].
  destruct (validateApiResponse (IsEnvelope e) (Some "home page"))
    as [tr' [d | t | ]]; try reflexivity.
  cbn [snd]. destruct (get d "blocks") as [blocks | t]; [ | reflexivity ].
  destruct (blocks_map blocks) as [logs [children | t]]; reflexivity.
Qed.

Lemma GET_serialises (P : Type) (JSON_stringify : P -> Completion (option string))
    (ms : option Z) (tok : option string) :
  serialises JSON_stringify (mkApiOptions GET None ms tok).
Proof. left; reflexivity. Qed.

(** X15.  Rendering the blocks keeps their number and order: a completed
    [map] has one child per block; the child of block number [k] has key
    [k] and the block as its [data]; it is a hero section or a features
    section by the block's [__component], and [null] for any other
    component. *)
Theorem map_blocks_one_child_per_block :
  forall (items : list JsVal) (tr : list PageEvent)
         (children : list (option Element)),
    blocks_map (VArr items) = (tr, Normal children) ->
    length children = length items
    /\ forall (k : nat) (block : JsVal),
         nth_error items k = Some block ->
         nth_error children k
         = Some (if strict_eq_str (field block "__component")
                      "layout.hero-section"
                 then Some (mkElement HeroSection k block)
                 else if strict_eq_str (field block "__component")
                           "layout.features-section"
                 then Some (mkElement FeaturesSection k block)
                 else None).
Proof.
  intros items tr children H. cbn [blocks_map] in H.
  destruct (map_blocks_completed items 0 tr children H)
    as [Hlen [_ Hnth]].
  split; [ exact Hlen | ].
  intros k block Hk. now destruct (Hnth k block Hk) as [_ ->].
Qed.

Lemma map_blocks_one_child_per_block_witness :
  length [Some (mkElement HeroSection 0
                  (VObj [("__component", VStr "layout.hero-section");
                         ("id", VNum 1)]));
          None;
          Some (mkElement FeaturesSection 2
                  (VObj [("__component", VStr "layout.features-section");
                         ("id", VNum 3)]))]
  = length sample_blocks.
Proof.
  apply (proj1 (map_blocks_one_child_per_block sample_blocks
                  [EvConsoleLog "Sections data:"
                     (VObj [("__component",
                             VStr "layout.features-section");
                            ("id", VNum 3)])]
                  _ eq_refl)).
Defined.

(** X16.  [blocks.map] completes exactly when no block is [null] or
    [undefined]; otherwise it raises the [TypeError] of reading
    [__component] on such a block. *)
Theorem map_blocks_raises_on_null_block :
  forall items : list JsVal,
    match snd (blocks_map (VArr items)) with
    | Normal _ => forall v, In v items -> nullish v = false
    | Abrupt t =>
        exists v, In v items /\ nullish v = true
                  /\ t = TypeError_read v "__component"
    end
    /\ ((forall v, In v items -> nullish v = false) ->
        exists children, snd (blocks_map (VArr items)) = Normal children).
Proof.
  intros items. cbn [blocks_map].
  pose proof (map_blocks_outcome items 0) as H.
  destruct (snd (map_blocks items 0)) as [children | t].
  - split; [ | intros _; now exists children ].
    intros v Hin. rewrite forallb_forall in H.
    specialize (H v Hin). now destruct (nullish v).
  - split; [ exact H | ].
    intros Hall. destruct H as [v [Hin [Hv _]]].
    rewrite (Hall v Hin) in Hv. discriminate Hv.
Qed.

Lemma map_blocks_raises_on_null_block_witness :
  exists children,
    snd (blocks_map (VArr sample_blocks)) = Normal children.
Proof.
  apply (proj2 (map_blocks_raises_on_null_block sample_blocks)).
  intros v [<- | [<- | [<- | []]]]; reflexivity.
Defined.

(** X17.  A completed [blocks.map] has logged each features section once,
    in the order of the blocks, and nothing else. *)
Theorem map_blocks_logs_features_sections :
  forall (items : list JsVal) (tr : list PageEvent)
         (children : list (option Element)),
    blocks_map (VArr items) = (tr, Normal children) ->
    tr = map (EvConsoleLog "Sections data:")
           (filter is_features_block items)
    /\ length tr = length (filter is_features_block items).
Proof.
  intros items tr children H. cbn [blocks_map] in H.
  destruct (map_blocks_completed items 0 tr children H) as [_ [-> _]].
  split; [ reflexivity | apply length_map ].
Qed.

Lemma map_blocks_logs_features_sections_witness :
  [EvConsoleLog "Sections data:"
     (VObj [("__component", VStr "layout.features-section");
            ("id", VNum 3)])]
  = map (EvConsoleLog "Sections data:")
      (filter is_features_block sample_blocks).
Proof.
  apply (proj1 (map_blocks_logs_features_sections sample_blocks _
                  [Some (mkElement HeroSection 0
                           (VObj [("__component",
                                   VStr "layout.hero-section");
                                  ("id", VNum 1)]));
                   None;
                   Some (mkElement FeaturesSection 2
                           (VObj [("__component",
                                   VStr "layout.features-section");
                                  ("id", VNum 3)]))]
                  eq_refl)).
Defined.

Lemma Home_validated (P : Type) (JSON_stringify : P -> Completion (option string))
    (href : string) (r : Response) (body : JsVal) :
  ok r = true ->
  r_json r = Normal body ->
  nullish body = false ->
  snd (Home JSON_stringify (Settles (Normal r)) href)
  = if truthy (unwrapped body) then
      match get (unwrapped body) "blocks" with
      | Abrupt t => Throws t
      | Normal blocks =>
          match snd (blocks_map blocks) with
          | Normal children => Returns (Main children)
          | Abrupt t => Throws t
          end
      end
    else Throws (new_Error (VStr "Failed to load home page")).
Proof.
  intros Hok Hjson Hnn. rewrite Home_outcome.
  on_response (GET_serialises P JSON_stringify None None).
  cbn [method authToken].
  rewrite (normalise_success GET href None r body eq_refl Hok Hjson Hnn).
  cbn [outcome snd]. rewrite validateApiResponse_envelope. unfold is_404, error_message.
  cbn. destruct (truthy (unwrapped body)); reflexivity.
Qed.

(** X18.  When the home page comes back with a 2xx status and its data
    holds an array [blocks] without [null] entries, [Home] returns
    [<main>] with one child per block. *)
Theorem Home_renders_blocks :
  forall (P : Type) (JSON_stringify : P -> Completion (option string))
         (href : string) (r : Response) (body : JsVal)
         (items : list JsVal),
    ok r = true ->
    r_json r = Normal body ->
    field (if truthy (field body "data") then field body "data" else body)
      "blocks" = VArr items ->
    (forall v, In v items -> nullish v = false) ->
    exists children,
      snd (Home JSON_stringify (Settles (Normal r)) href)
      = Returns (Main children)
      /\ length children = length items
      /\ snd (blocks_map (VArr items)) = Normal children.
Proof.
  intros P JSON_stringify href r body items Hok Hjson Hblocks Hall.
  fold (unwrapped body) in Hblocks.
  assert (Hd : exists props, unwrapped body = VObj props).
  { destruct (unwrapped body); try discriminate Hblocks. now eexists. }
  destruct Hd as [props Hd].
  assert (Hnn : nullish body = false).
  { destruct body; try reflexivity; discriminate Hd. }
  rewrite (Home_validated P JSON_stringify href r body Hok Hjson Hnn).
  rewrite Hd in Hblocks |- *. cbn [truthy get nullish]. rewrite Hblocks.
  cbn [blocks_map].
  pose proof (map_blocks_outcome items 0) as Ho.
  destruct (map_blocks items 0) as [tr [children | t]] eqn:Hm.
  - exists children. split; [ reflexivity | split; [ | reflexivity ] ].
    now destruct (map_blocks_completed items 0 tr children Hm).
  - cbn in Ho. destruct Ho as [v [Hin [Hv _]]].
    rewrite (Hall v Hin) in Hv. discriminate Hv.
Qed.

Lemma Home_renders_blocks_witness :
  exists children,
    snd (Home stringify_unit
           (responds 200 "OK"
              (VObj [("data", VObj [("blocks", VArr sample_blocks)])]))
           "/api/home-page")
    = Returns (Main children)
    /\ length children = length sample_blocks
    /\ snd (blocks_map (VArr sample_blocks)) = Normal children.
Proof.
  apply (Home_renders_blocks unit stringify_unit "/api/home-page"
           (mkResponse 200 "OK"
              (Normal (VObj [("data",
                              VObj [("blocks", VArr sample_blocks)])])))
           (VObj [("data", VObj [("blocks", VArr sample_blocks)])])
           sample_blocks).
  - reflexivity.
  - reflexivity.
  - reflexivity.
  - intros v [<- | [<- | [<- | []]]]; reflexivity.
Defined.

(** X19.  When the validated data has no array under [blocks] (the
    property is missing, or is anything but an array), [Home] raises a
    [TypeError]: the page has no guard between validation and
    [blocks.map]. *)
Theorem Home_needs_blocks_array :
  forall (P : Type) (JSON_stringify : P -> Completion (option string))
         (href : string) (r : Response) (body : JsVal),
    ok r = true ->
    r_json r = Normal body ->
    body <> VNull ->
    body <> VUndefined ->
    truthy (if truthy (field body "data") then field body "data" else body)
    = true ->
    (forall items,
        field (if truthy (field body "data") then field body "data"
               else body) "blocks" <> VArr items) ->
    exists message,
      snd (Home JSON_stringify (Settles (Normal r)) href)
      = Throws (ErrorObject "TypeError" message).
Proof.
  intros P JSON_stringify href r body Hok Hjson Hn Hu Ht Hnot.
  fold (unwrapped body) in Ht, Hnot.
  assert (Hnn : nullish body = false)
    by (destruct body; try reflexivity; congruence).
  rewrite (Home_validated P JSON_stringify href r body Hok Hjson Hnn).
  rewrite Ht. rewrite (get_not_nullish _ _ (truthy_not_nullish _ Ht)).
  destruct (field (unwrapped body) "blocks") as [ | | b | n | s | l | o ];
    cbn; try (eexists; reflexivity).
  now elim (Hnot l).
Qed.

Lemma Home_needs_blocks_array_witness :
  exists message,
    snd (Home stringify_unit
           (responds 200 "OK" (VObj [("data", VNull); ("meta", VObj [])]))
           "/api/home-page")
    = Throws (ErrorObject "TypeError" message).
Proof.
  apply (Home_needs_blocks_array unit stringify_unit "/api/home-page"
           (mkResponse 200 "OK"
              (Normal (VObj [("data", VNull); ("meta", VObj [])])))
           (VObj [("data", VNull); ("meta", VObj [])])).
  - reflexivity.
  - reflexivity.
  - discriminate.
  - discriminate.
  - reflexivity.
  - intros items. discriminate.
Defined.

(** X20.  [Home] answers a 404 with the not-found redirect when the body
    parses and either has no truthy [error] (the synthesised error takes
    the HTTP status) or has an [error] whose own [status] is 404. *)
Theorem Home_not_found :
  forall (P : Type) (JSON_stringify : P -> Completion (option string))
         (href : string) (r : Response) (body : JsVal),
    r_status r = 404 ->
    r_json r = Normal body ->
    body <> VNull ->
    body <> VUndefined ->
    truthy (field body "error") = false
    \/ field (field body "error") "status" = VNum 404 ->
    snd (Home JSON_stringify (Settles (Normal r)) href) = NotFound.
Proof.
  intros P JSON_stringify href r body Hst Hjson Hn Hu Herr.
  assert (Hnn : nullish body = false)
    by (destruct body; try reflexivity; congruence).
  assert (Hok : ok r = false) by (unfold ok; rewrite Hst; reflexivity).
  rewrite Home_outcome.
  on_response (GET_serialises P JSON_stringify None None).
  cbn [method authToken].
  destruct Herr as [Hfalsy | H404].
  - rewrite (normalise_synthesises_error GET href None r body
               eq_refl Hok Hjson Hnn Hfalsy).
    cbn [outcome snd]. rewrite validateApiResponse_envelope. unfold is_404. cbn.
    rewrite Hst. reflexivity.
  - assert (Ht : truthy (field body "error") = true).
    { destruct (field body "error"); try discriminate H404. reflexivity. }
    rewrite (normalise_passes_error GET href None r body
               eq_refl Hok Hjson Ht).
    cbn [outcome snd]. rewrite validateApiResponse_envelope. unfold is_404, opt_field.
    cbn [error failure snd outcome].
    rewrite (truthy_not_nullish _ Ht), H404. reflexivity.
Qed.

Lemma Home_not_found_witness :
  snd (Home stringify_unit
         (responds 404 "Not Found" (VObj [("error", not_found_error)]))
         "/api/home-page")
  = NotFound.
Proof.
  apply (Home_not_found unit stringify_unit "/api/home-page"
           (mkResponse 404 "Not Found"
              (Normal (VObj [("error", not_found_error)])))
           (VObj [("error", not_found_error)])).
  - reflexivity.
  - reflexivity.
  - discriminate.
  - discriminate.
  - right; reflexivity.
Defined.

(** X21.  [Home] never renders after a failed request.  If [apiRequest]
    raises, [Home] raises the same.  For every failure envelope, [Home]
    redirects when the envelope's error status is 404 and otherwise raises
    an [Error] made from the envelope's error message, or "Failed to load
    home page" when that is falsy.  So: the timeout message when the timer
    ran first; the exception's own message when [fetch] rejects or the body
    does not parse (whatever the HTTP status, 404 included: no redirect
    then); for a response outside 2xx whose body parses, redirect or
    [Error] by the [status] and [message] of the body's [error] when that
    is truthy, else of the synthesised error; and "Failed to load home
    page" when a 2xx body carries no truthy data. *)
Theorem Home_raises_on_failure :
  forall (P : Type) (JSON_stringify : P -> Completion (option string))
         (href : string),
    (forall (net : Network) (e : TStrapiResponse),
        outcome (apiRequest JSON_stringify net href
                   (mkApiOptions GET None None None)) = Normal e ->
        success e = VBool false ->
        snd (Home JSON_stringify net href)
        = if is_404 e then NotFound
          else Throws (new_Error
                         (if truthy (error_message e) then error_message e
                          else VStr "Failed to load home page")))
    /\ (forall (net : Network) (t : Thrown),
           outcome (apiRequest JSON_stringify net href
                      (mkApiOptions GET None None None)) = Abrupt t ->
           snd (Home JSON_stringify net href) = Throws t)
    /\ snd (Home JSON_stringify TimerFires href)
       = Throws (new_Error
                   (VStr "The request timed out. Please try again."))
    /\ (forall name message : string,
           name <> "AbortError" -> message <> "" ->
           snd (Home JSON_stringify
                  (Settles (Abrupt (ErrorObject name (VStr message)))) href)
           = Throws (new_Error (VStr message)))
    /\ (forall (r : Response) (name message : string),
           name <> "AbortError" -> message <> "" ->
           r_json r = Abrupt (ErrorObject name (VStr message)) ->
           snd (Home JSON_stringify (Settles (Normal r)) href)
           = Throws (new_Error (VStr message)))
    /\ (forall (r : Response) (body : JsVal),
           ok r = false ->
           r_json r = Normal body ->
           body <> VNull -> body <> VUndefined ->
           snd (Home JSON_stringify (Settles (Normal r)) href)
           = let err :=
               if truthy (field body "error") then field body "error"
               else VObj [("status", VNum (r_status r));
                          ("name", VStr "Error");
                          ("message",
                           VStr (if String.eqb (r_statusText r) ""
                                 then "An error occurred"
                                 else r_statusText r))] in
             if strict_eq_num (opt_field err "status") 404 then NotFound
             else Throws (new_Error
                            (if truthy (opt_field err "message")
                             then opt_field err "message"
                             else VStr "Failed to load home page")))
    /\ (forall (r : Response) (body : JsVal),
           ok r = true ->
           r_json r = Normal body ->
           body <> VNull -> body <> VUndefined ->
           truthy (if truthy (field body "data") then field body "data"
                   else body) = false ->
           snd (Home JSON_stringify (Settles (Normal r)) href)
           = Throws (new_Error (VStr "Failed to load home page"))).
Proof.
  intros P JSON_stringify href.
  assert (Hfail : forall (net : Network) (e : TStrapiResponse),
             outcome (apiRequest JSON_stringify net href
                        (mkApiOptions GET None None None)) = Normal e ->
             success e = VBool false ->
             snd (Home JSON_stringify net href)
             = if is_404 e then NotFound
               else Throws (new_Error
                              (if truthy (error_message e)
                               then error_message e
                               else VStr "Failed to load home page"))).
  { intros net e Hrun Hs. rewrite Home_outcome, Hrun.
    rewrite validateApiResponse_envelope, Hs.
    destruct (is_404 e); reflexivity. }
  assert (Hcaught : forall (net : Network) (name message : string),
             name <> "AbortError" -> message <> "" ->
             outcome (apiRequest JSON_stringify net href
                        (mkApiOptions GET None None None))
             = outcome (on_caught GET href
                          (ErrorObject name (VStr message))) ->
             snd (Home JSON_stringify net href)
             = Throws (new_Error (VStr message))).
  { intros net name message Hname Hmsg Hrun.
    rewrite (on_caught_by_name GET href
               (ErrorObject name (VStr message)) (VStr name) eq_refl)
      in Hrun.
    cbn [strict_eq_str] in Hrun.
    apply String.eqb_neq in Hname. rewrite Hname in Hrun.
    rewrite (Hfail net _ Hrun eq_refl).
    unfold is_404, error_message. cbn.
    apply String.eqb_neq in Hmsg. rewrite Hmsg. reflexivity. }
  split; [ exact Hfail | ].
  split; [ intros net t Hrun; rewrite Home_outcome, Hrun; reflexivity | ].
  split; [ reflexivity | ].
  split; [ | split; [ | split ] ].
  - intros name message Hname Hmsg.
    apply (Hcaught _ name message Hname Hmsg).
    rewrite apiRequest_run, request_body_run. reflexivity.
  - intros r name message Hname Hmsg Hjson.
    apply (Hcaught _ name message Hname Hmsg).
    rewrite apiRequest_run, request_body_run.
    cbn [method payload authToken bodyless snd outcome].
    unfold normalise, response_json. rewrite Hjson. reflexivity.
  - intros r body Hok Hjson Hn Hu.
    assert (Hnn : nullish body = false)
      by (destruct body; try reflexivity; congruence).
    destruct (truthy (field body "error")) eqn:Ht.
    + rewrite (Hfail _ (failure (field body "error") (r_status r)));
        [ reflexivity | | reflexivity ].
      on_response (GET_serialises P JSON_stringify None None).
      cbn [method authToken].
      rewrite (normalise_passes_error GET href None r body
                 eq_refl Hok Hjson Ht).
      reflexivity.
    + rewrite (Hfail _ (failure
                          (error_object (r_status r) (VStr "Error")
                             (VStr (status_text_or_generic r)))
                          (r_status r)));
        [ reflexivity | | reflexivity ].
      on_response (GET_serialises P JSON_stringify None None).
      cbn [method authToken].
      rewrite (normalise_synthesises_error GET href None r body
                 eq_refl Hok Hjson Hnn Ht).
      reflexivity.
  - intros r body Hok Hjson Hn Hu Ht.
    assert (Hnn : nullish body = false)
      by (destruct body; try reflexivity; congruence).
    rewrite (Home_validated P JSON_stringify href r body Hok Hjson Hnn).
    unfold unwrapped. rewrite Ht. reflexivity.
Qed.

Lemma Home_raises_on_failure_witness :
  snd (Home stringify_unit
         (Settles (Normal (mkResponse 404 "Not Found"
                             (Abrupt (ErrorObject "SyntaxError"
                                        (VStr "Unexpected token <"))))))
         "/api/home-page")
  = Throws (new_Error (VStr "Unexpected token <"))
  /\ snd (Home stringify_unit
            (responds 500 "Internal Server Error"
               (VObj [("error", not_found_error)]))
            "/api/home-page")
     = NotFound.
Proof.
  destruct (Home_raises_on_failure unit stringify_unit "/api/home-page")
    as [_ [_ [_ [_ [Hparse [Hbody _]]]]]].
  split.
  - apply (Hparse
             (mkResponse 404 "Not Found"
                (Abrupt (ErrorObject "SyntaxError"
                           (VStr "Unexpected token <"))))
             "SyntaxError" "Unexpected token <").
    + discriminate.
    + discriminate.
    + reflexivity.
  - apply (Hbody
             (mkResponse 500 "Internal Server Error"
                (Normal (VObj [("error", not_found_error)])))
             (VObj [("error", not_found_error)])).
    + reflexivity.
    + reflexivity.
    + discriminate.
    + discriminate.
Defined.

(** X22.  Both loaders make a public request: the first calls are the
    arming of an 8000 ms timer and one [fetch] of the loader's URL with the
    verb GET, the only header [Content-Type: application/json], no body and
    the function's own signal; no other [fetch] follows. *)
Theorem loaders_send_public_get :
  forall (P : Type) (JSON_stringify : P -> Completion (option string))
         (net : Network) (global_href home_page_href : string),
    let sent :=
      {| ri_method := Some GET;
         ri_headers := [("Content-Type", "application/json")];
         ri_body := None;
         ri_signal := Some ControllerSignal |} in
    (exists rest,
        trace (getGlobalData JSON_stringify net global_href)
        = EvSetTimeout 8000 :: EvFetch global_href sent :: rest
        /\ calls is_fetch rest = 0%nat)
    /\ (exists rest,
           trace (getHomePageData JSON_stringify net home_page_href)
           = EvSetTimeout 8000 :: EvFetch home_page_href sent :: rest
           /\ calls is_fetch rest = 0%nat).
Proof.
  intros P JSON_stringify net global_href home_page_href sent.
  assert (H : forall href,
             exists rest,
               trace (apiRequest JSON_stringify net href
                        (mkApiOptions GET None None None))
               = EvSetTimeout 8000 :: EvFetch href sent :: rest
               /\ calls is_fetch rest = 0%nat).
  { intros href.
    destruct (apiRequest_trace P JSON_stringify net href
                (mkApiOptions GET None None None))
      as [rest [Hrest [_ Htr]]].
    destruct (parse_or_log_calls rest Hrest) as [Hf _].
    rewrite request_body_run in Htr.
    cbn [method payload bodyless snd] in Htr. rewrite Htr.
    destruct net as [c | ].
    - exists (EvClearTimeout :: rest). split; [ reflexivity | exact Hf ].
    - exists (EvAbort :: EvClearTimeout :: rest).
      split; [ reflexivity | exact Hf ]. }
  split; apply H.
Qed.
